(** * Dispatch and hand-off commands of gastown: [convoy queue], [sling], [recycle]

    A shallow embedding of [internal/cmd/convoy_queue.go] and
    [internal/cmd/recycle.go] (which also carries the [sling] command), and
    the properties of the dispatch/hand-off specification that concern them.

    Go strings are byte strings and are modelled by [string]; a Go [error] is
    the text of its message.  Calls that leave the process (environment,
    [tmux], [bd], [git], the wisp directory, the mail sender) are answered by
    a [Host] record; calls that change something are logged, in program
    order, as [Event]s, and the state they change is threaded through a small
    state-and-error monad. *)

From stdpp Require Import gmap strings list.
From Stdlib Require Import Ascii String.

Open Scope string_scope.
Open Scope list_scope.

(** ** The functions of Go's [strings] package that the commands use *)

Module GoStrings.

Definition HasPrefix (s p : string) : bool := String.prefix p s.

Fixpoint Contains (s sub : string) : bool :=
  String.prefix sub s ||
  match s with
  | EmptyString => false
  | String _ r => Contains r sub
  end.

Definition HasSuffix (s suf : string) : bool :=
  (String.length suf <=? String.length s)%nat &&
  String.eqb
    (String.substring (String.length s - String.length suf)
                      (String.length suf) s)
    suf.

Definition TrimPrefix (s p : string) : string :=
  if HasPrefix s p
  then String.substring (String.length p)
                        (String.length s - String.length p) s
  else s.

Definition TrimSuffix (s suf : string) : string :=
  if HasSuffix s suf
  then String.substring 0 (String.length s - String.length suf) s
  else s.

(** [strings.ToLower] on the ASCII range, which is where the role keywords
    live: the letters A to Z are mapped, every other byte is left as it
    is. *)
Definition lowerByte (c : ascii) : ascii :=
  let n := nat_of_ascii c in
  if (65 <=? n)%nat && (n <=? 90)%nat then ascii_of_nat (n + 32) else c.

Fixpoint ToLower (s : string) : string :=
  match s with
  | EmptyString => EmptyString
  | String c r => String (lowerByte c) (ToLower r)
  end.

Definition bytes (l : list nat) : string :=
  fold_right (fun n s => String (ascii_of_nat n) s) EmptyString l.

(** The UTF-8 encodings of the runes [unicode.IsSpace] accepts: tab to
    carriage return, space, U+0085, U+00A0, U+1680, U+2000 to U+200A,
    U+2028, U+2029, U+202F, U+205F and U+3000. *)
Definition spaceRunes : list string :=
  map bytes
    [ [9]; [10]; [11]; [12]; [13]; [32]; [194; 133]; [194; 160];
      [225; 154; 128];
      [226; 128; 128]; [226; 128; 129]; [226; 128; 130]; [226; 128; 131];
      [226; 128; 132]; [226; 128; 133]; [226; 128; 134]; [226; 128; 135];
      [226; 128; 136]; [226; 128; 137]; [226; 128; 138];
      [226; 128; 168]; [226; 128; 169]; [226; 128; 175]; [226; 129; 159];
      [227; 128; 128] ].

(** Drops the leading runes of [s] that are among [runes]; [fuel] bounds the
    number of runes dropped. *)
Fixpoint trimRunes (runes : list string) (fuel : nat) (s : string) : string :=
  match fuel with
  | O => s
  | S fuel' =>
      match List.find (fun r => String.prefix r s) runes with
      | Some r =>
          trimRunes runes fuel'
            (String.substring (String.length r)
                              (String.length s - String.length r) s)
      | None => s
      end
  end.

Definition trimLeft (s : string) : string :=
  trimRunes spaceRunes (String.length s) s.

Definition trimRight (s : string) : string :=
  String.rev (trimRunes (map String.rev spaceRunes) (String.length s)
                        (String.rev s)).

(** [strings.TrimSpace]: white space, as Unicode defines it, off both
    ends. *)
Definition TrimSpace (s : string) : string := trimRight (trimLeft s).

(** [strings.Split(s, sep)] for a one-byte separator. *)
Fixpoint Split (s : string) (sep : ascii) : list string :=
  match s with
  | EmptyString => [EmptyString]
  | String c r =>
      if Ascii.eqb c sep then EmptyString :: Split r sep
      else match Split r sep with
           | h :: t => String c h :: t
           | [] => [String c EmptyString]
           end
  end.

End GoStrings.
Import GoStrings.

Definition newline : ascii := "010"%char.

(** ** Data *)

(** The hand-off record ([wisp.SlungWork]): the bead attached to an agent's
    hook, with the optional subject and context of the hand-off. *)
Record SlungWork : Type := mkSlungWork {
  sw_BeadID    : string;
  sw_Agent     : string;
  sw_Subject   : string;
  sw_Context   : string;
  sw_CreatedAt : nat
}.

(** [EnqueueOptions], with the fields [runConvoyQueue] sets. *)
Record EnqueueOptions : Type := mkEnqueueOptions {
  Formula  : string;
  NoConvoy : bool;
  Force    : bool
}.

(** One tracked issue as [getTrackedIssues] reports it. *)
Record trackedIssueInfo : Type := mkTracked {
  ID       : string;
  Title    : string;
  Status   : string;
  Assignee : string
}.

(** What [getBeadInfo] returns, as far as the queue reads it. *)
Record beadInfo : Type := mkBeadInfo {
  Labels : list string
}.

(** [queueCandidate] of [runConvoyQueue]. *)
Record queueCandidate : Type := mkCandidate {
  c_ID      : string;
  c_Title   : string;
  c_RigName : string
}.

(** What [detectCrewFromCwd] finds. *)
Record crewDetection : Type := mkCrew {
  rigName  : string;
  crewName : string
}.

(** ** Results, messages and events *)

Inductive Res (A : Type) : Type :=
| Ok (a : A)
| Err (e : string).
Arguments Ok {A} a.
Arguments Err {A} e.

(** The messages the two files print with [fmt.Printf]/[fmt.Println], each
    with the values it formats. *)
Inductive Msg : Type :=
(* recycle *)
| MsgRecycling (session : string)
| MsgWouldRespawn (pane cmd : string)
| MsgWouldSwitch (session : string)
| MsgSwitching (session : string)
| MsgCouldNotSwitch (session : string)
(* sling *)
| MsgSlinging (beadID : string)
| MsgWouldCreateWisp (root agent : string)
| MsgDryBead (beadID : string)
| MsgDryAgent (agent : string)
| MsgDrySubject (subject : string)
| MsgDryContext (context : string)
| MsgWouldTriggerHandoff
| MsgWorkAttached
| MsgPolecatDetected
| MsgMailWarning (err : string)
| MsgSentMail
| MsgRestarting
(* convoy queue *)
| MsgNoTracked (convoy : string)
| MsgCouldNotCheck (id err : string)
| MsgNoRig (id prefix : string)
| MsgNoIssues (convoy : string)
| MsgSkipped (closed assigned queued norig : nat)
| MsgWouldQueueHeader (n : nat) (convoy : string)
| MsgWouldQueue (id rig title : string)
| MsgQueuing (n : nat) (convoy : string)
| MsgEnqueueFailed (id err : string)
| MsgQueued (ok total : nat) (convoy : string).

(** The calls that act on the world, in the order the program makes them. *)
Inductive Event : Type :=
| Printed (m : Msg)
| EvWriteSlungWork (root agent : string) (sw : SlungWork)
| EvHandoffMail (subject message : string)
| EvRespawnPane (pane cmd : string)
| EvSwitchClient (session : string)
| EvEnqueueBead (id rig : string) (opts : EnqueueOptions).

(** ** The monad: state [S], early return with an error, event log *)

Definition M (S A : Type) : Type := S -> Res A * S * list Event.

Definition ret {S A} (a : A) : M S A := fun s => (Ok a, s, []).

Definition failWith {S A} (e : string) : M S A := fun s => (Err e, s, []).

Definition bind {S A B} (m : M S A) (k : A -> M S B) : M S B :=
  fun s =>
    match m s with
    | (Ok a, s1, t1) =>
        match k a s1 with
        | (r, s2, t2) => (r, s2, t1 ++ t2)
        end
    | (Err e, s1, t1) => (Err e, s1, t1)
    end.

Notation "x <- m ;; k" := (bind m (fun x => k))
  (at level 200, m at level 99, k at level 200, right associativity,
   format "'[v' x  <-  m  ;; '/' k ']'").
Notation "m ;;; k" := (bind m (fun _ => k))
  (at level 200, k at level 200, right associativity,
   format "'[v' m  ;;; '/' k ']'").

Definition emit {S} (e : Event) : M S unit := fun s => (Ok tt, s, [e]).

Definition say {S} (m : Msg) : M S unit := emit (Printed m).

(** [if err != nil { return err }]. *)
Definition liftRes {S A} (r : Res A) : M S A :=
  match r with
  | Ok a => ret a
  | Err e => failWith e
  end.

(** [if err != nil { return fmt.Errorf(prefix + ": %w", err) }]. *)
Definition wrap {S A} (prefix : string) (m : M S A) : M S A :=
  fun s =>
    match m s with
    | (Err e, s1, t1) => (Err (prefix +:+ e), s1, t1)
    | r => r
    end.

(** [if err != nil { return fmt.Errorf(msg) }]: the cause is dropped. *)
Definition orFail {S A} (msg : string) (m : M S A) : M S A :=
  fun s =>
    match m s with
    | (Err _, s1, t1) => (Err msg, s1, t1)
    | r => r
    end.

Definition when {S} (b : bool) (m : M S unit) : M S unit :=
  if b then m else ret tt.

Definition result {S A} (r : Res A * S * list Event) : Res A := r.1.1.
Definition final {S A} (r : Res A * S * list Event) : S := r.1.2.
Definition trace {S A} (r : Res A * S * list Event) : list Event := r.2.

(** ** The host: everything the commands ask of their surroundings *)

Record Host : Type := mkHost {
  (** process environment; [os.Getenv] of an unset variable is empty *)
  environ : gmap string string;
  (** [tmux.IsInsideTmux] *)
  IsInsideTmux : bool;
  (** output of [tmux display-message -p #{session_name}] *)
  tmuxSessionName : Res string;
  (** [detectCrewFromCwd] *)
  detectCrewFromCwd : Res crewDetection;
  (** output of [git rev-parse --show-toplevel] *)
  gitToplevel : Res string;
  (** [bd show <id> --json]: [None] when it exits with success, otherwise
      the failure text of the issue store *)
  bdShow : string -> option string;
  (** [tmux.HasSession] *)
  HasSession : string -> Res bool;
  (** output of [tmux list-panes -t <session> -F #{pane_id}] *)
  tmuxListPanes : string -> Res string;
  (** error of [tmux.RespawnPane pane cmd], if any *)
  respawnError : string -> string -> option string;
  (** error of [tmux switch-client -t <session>], if any *)
  switchClientError : string -> option string;
  (** error of [wisp.WriteSlungWork], if any *)
  writeWispError : string -> string -> SlungWork -> option string;
  (** error of [sendHandoffMail], if any *)
  handoffMailError : string -> string -> option string;
  (** [workspace.FindFromCwdOrError] *)
  FindFromCwdOrError : Res string;
  (** the clock read by [wisp.NewSlungWork] *)
  now : nat
}.

Definition Getenv (h : Host) (k : string) : string :=
  default "" (environ h !! k).

(** The hook slots: one per clone root and agent identity. *)
Abbreviation Hooks := (gmap (string * string) SlungWork).

(** ** [recycle.go]: the [recycle] command *)

(** The command's flags as the command line gives them: [None] where a flag
    is absent.  [init] registers [--watch] with default [true] and
    [--dry-run] with default [false]. *)
Record RecycleFlags : Type := mkRecycleFlags {
  watchGiven  : option bool;
  dryRunGiven : option bool
}.

Definition recycleWatch (f : RecycleFlags) : bool := default true (watchGiven f).
Definition recycleDryRun (f : RecycleFlags) : bool := default false (dryRunGiven f).

Section Recycle.
Context (h : Host).

(** [t.RespawnPane(pane, cmd)] *)
Definition RespawnPane {S} (pane cmd : string) : M S unit :=
  fun s =>
    (match respawnError h pane cmd with
     | None => Ok tt
     | Some e => Err e
     end, s, [EvRespawnPane pane cmd]).

(** [exec.Command("tmux", "switch-client", "-t", session).Run()] *)
Definition switchClient {S} (session : string) : M S (option string) :=
  fun s => (Ok (switchClientError h session), s, [EvSwitchClient session]).

Definition getCurrentTmuxSession : Res string :=
  match tmuxSessionName h with
  | Err e => Err e
  | Ok out => Ok (TrimSpace out)
  end.

Definition resolveRoleToSession (role : string) : Res string :=
  let r := ToLower role in
  if String.eqb r "mayor" || String.eqb r "may" then Ok "gt-mayor"
  else if String.eqb r "deacon" || String.eqb r "dea" then Ok "gt-deacon"
  else if String.eqb r "crew" then
    let rig := Getenv h "GT_RIG" in
    let crew := Getenv h "GT_CREW" in
    let '(rig, crew) :=
      if String.eqb rig "" || String.eqb crew "" then
        match detectCrewFromCwd h with
        | Ok detected => (rigName detected, crewName detected)
        | Err _ => (rig, crew)
        end
      else (rig, crew) in
    if String.eqb rig "" || String.eqb crew "" then
      Err "cannot determine crew identity - run from crew directory or specify GT_RIG/GT_CREW"
    else Ok ("gt-" +:+ rig +:+ "-crew-" +:+ crew)
  else if String.eqb r "witness" || String.eqb r "wit" then
    let rig := Getenv h "GT_RIG" in
    if String.eqb rig "" then
      Err "cannot determine rig - set GT_RIG or run from rig context"
    else Ok ("gt-" +:+ rig +:+ "-witness")
  else if String.eqb r "refinery" || String.eqb r "ref" then
    let rig := Getenv h "GT_RIG" in
    if String.eqb rig "" then
      Err "cannot determine rig - set GT_RIG or run from rig context"
    else Ok ("gt-" +:+ rig +:+ "-refinery")
  else Ok role.

Definition buildRestartCommand (sessionName : string) : Res string :=
  if String.eqb sessionName "gt-mayor" then Ok "gt may at"
  else if String.eqb sessionName "gt-deacon" then Ok "gt dea at"
  else if Contains sessionName "-crew-" then Ok "gt crew at"
  else if HasSuffix sessionName "-witness" then Ok "gt wit at"
  else if HasSuffix sessionName "-refinery" then Ok "gt ref at"
  else Err ("unknown session type: " +:+ sessionName
            +:+ " (try specifying role explicitly)").

Definition getSessionPane (sessionName : string) : Res string :=
  match tmuxListPanes h sessionName with
  | Err e => Err e
  | Ok out =>
      match Split (TrimSpace out) newline with
      | [] => Err "no panes found in session"
      | line0 :: _ =>
          if String.eqb line0 "" then Err "no panes found in session"
          else Ok line0
      end
  end.

Definition recycleRemoteSession {S} (f : RecycleFlags)
    (targetSession restartCmd : string) : M S unit :=
  exists_ <- wrap "checking session: " (liftRes (HasSession h targetSession)) ;;
  if negb exists_ then
    failWith ("session '" +:+ targetSession +:+ "' not found - is the agent running?")
  else
    targetPane <- wrap "getting target pane: " (liftRes (getSessionPane targetSession)) ;;
    say (MsgRecycling targetSession) ;;;
    if recycleDryRun f then
      say (MsgWouldRespawn targetPane restartCmd) ;;;
      when (recycleWatch f) (say (MsgWouldSwitch targetSession))
    else
      wrap "respawning pane: " (RespawnPane targetPane restartCmd) ;;;
      when (recycleWatch f)
        (say (MsgSwitching targetSession) ;;;
         err <- switchClient targetSession ;;
         match err with
         | Some _ => say (MsgCouldNotSwitch targetSession)
         | None => ret tt
         end).

Definition runRecycle {S} (f : RecycleFlags) (args : list string) : M S unit :=
  if negb (IsInsideTmux h) then failWith "not running in tmux - cannot recycle"
  else
    let pane := Getenv h "TMUX_PANE" in
    if String.eqb pane "" then failWith "TMUX_PANE not set - cannot recycle"
    else
      currentSession <- wrap "getting session name: " (liftRes getCurrentTmuxSession) ;;
      targetSession <-
        match args with
        | role :: _ => wrap "resolving role: " (liftRes (resolveRoleToSession role))
        | [] => ret currentSession
        end ;;
      restartCmd <- liftRes (buildRestartCommand targetSession) ;;
      if negb (String.eqb targetSession currentSession) then
        recycleRemoteSession f targetSession restartCmd
      else
        say (MsgRecycling currentSession) ;;;
        if recycleDryRun f then say (MsgWouldRespawn pane restartCmd)
        else RespawnPane pane restartCmd.

End Recycle.

(** ** [recycle.go], second part: the [sling] command *)

Record SlingFlags : Type := mkSlingFlags {
  slingSubject : string;
  slingMessage : string;
  slingDryRun  : bool
}.

Section Sling.
Context (h : Host).

(** [verifyBeadExists]: whatever makes [bd show] fail, the error is the
    same. *)
Definition verifyBeadExists {S} (beadID : string) : M S unit :=
  match bdShow h beadID with
  | Some _ => failWith ("bead '" +:+ beadID +:+ "' not found (bd show failed)")
  | None => ret tt
  end.

(** The last resort of [detectAgentIdentity]: the role markers in the
    session name, read only when [TMUX] is set. *)
Definition identityFromSession : option string :=
  if String.eqb (Getenv h "TMUX") "" then None
  else
    match getCurrentTmuxSession h with
    | Err _ => None
    | Ok sessionName =>
        if String.eqb sessionName "gt-mayor" then Some "mayor"
        else if String.eqb sessionName "gt-deacon" then Some "deacon"
        else if HasSuffix sessionName "-witness" then
          Some (TrimSuffix (TrimPrefix sessionName "gt-") "-witness" +:+ "/witness")
        else if HasSuffix sessionName "-refinery" then
          Some (TrimSuffix (TrimPrefix sessionName "gt-") "-refinery" +:+ "/refinery")
        else None
    end.

Definition detectAgentIdentity : Res string :=
  let crew := Getenv h "GT_CREW" in
  let rig := Getenv h "GT_RIG" in
  let polecat := Getenv h "GT_POLECAT" in
  if negb (String.eqb crew "") && negb (String.eqb rig "") then
    Ok (rig +:+ "/crew/" +:+ crew)
  else if negb (String.eqb polecat "") && negb (String.eqb rig "") then
    Ok (rig +:+ "/polecats/" +:+ polecat)
  else
    match detectCrewFromCwd h with
    | Ok detected => Ok (rigName detected +:+ "/crew/" +:+ crewName detected)
    | Err _ =>
        match identityFromSession with
        | Some agent => Ok agent
        | None =>
            Err "cannot determine agent identity - set GT_RIG/GT_CREW or run from clone directory"
        end
    end.

Definition detectCloneRoot : Res string :=
  match gitToplevel h with
  | Err _ => Err "not in a git repository"
  | Ok out => Ok (TrimSpace out)
  end.

(** Modelled from the spec: [wisp.NewSlungWork] is not part of the two
    files; the hand-off record it builds has the attached issue, the owning
    identity, an empty subject and context, and the creation time. *)
Definition NewSlungWork (beadID agentID : string) : SlungWork :=
  mkSlungWork beadID agentID "" "" (now h).

(** Modelled from the spec: [wisp.WriteSlungWork] is not part of the two
    files; it writes the record to the identity's slot, overwriting any
    prior hook, or fails and leaves the slot as it was. *)
Definition WriteSlungWork (cloneRoot agentID : string) (sw : SlungWork)
  : M Hooks unit :=
  fun hooks =>
    match writeWispError h cloneRoot agentID sw with
    | Some e => (Err e, hooks, [EvWriteSlungWork cloneRoot agentID sw])
    | None => (Ok tt, <[(cloneRoot, agentID) := sw]> hooks,
               [EvWriteSlungWork cloneRoot agentID sw])
    end.

(** [sendHandoffMail(subject, message)] *)
Definition sendHandoffMail {S} (subject message : string) : M S (option string) :=
  fun s => (Ok (handoffMailError h subject message), s,
            [EvHandoffMail subject message]).

Definition triggerHandoff {S} (f : SlingFlags) (agentID beadID : string)
  : M S unit :=
  if negb (String.eqb (Getenv h "GT_POLECAT") "") then
    say MsgPolecatDetected ;;;
    failWith "polecats cannot sling - use gt done for handoff"
  else if negb (IsInsideTmux h) then failWith "not running in tmux - cannot restart"
  else
    let pane := Getenv h "TMUX_PANE" in
    if String.eqb pane "" then failWith "TMUX_PANE not set"
    else
      currentSession <- wrap "getting session: " (liftRes (getCurrentTmuxSession h)) ;;
      restartCmd <- liftRes (buildRestartCommand currentSession) ;;
      let subject :=
        if String.eqb (slingSubject f) "" then "🎯 SLUNG: " +:+ beadID
        else "🎯 SLUNG: " +:+ slingSubject f in
      let message :=
        if String.eqb (slingMessage f) "" then
          "Work slung onto hook. Run bd show " +:+ beadID +:+ " for details."
        else slingMessage f in
      err <- sendHandoffMail subject message ;;
      match err with
      | Some e => say (MsgMailWarning e)
      | None => say MsgSentMail
      end ;;;
      say MsgRestarting ;;;
      RespawnPane h pane restartCmd.

Definition runSling (f : SlingFlags) (beadID : string) : M Hooks unit :=
  verifyBeadExists beadID ;;;
  agentID <- wrap "detecting agent identity: " (liftRes detectAgentIdentity) ;;
  cloneRoot <- wrap "detecting clone root: " (liftRes detectCloneRoot) ;;
  let sw0 := NewSlungWork beadID agentID in
  let sw := mkSlungWork (sw_BeadID sw0) (sw_Agent sw0)
                        (slingSubject f) (slingMessage f) (sw_CreatedAt sw0) in
  say (MsgSlinging beadID) ;;;
  if slingDryRun f then
    say (MsgWouldCreateWisp cloneRoot agentID) ;;;
    say (MsgDryBead beadID) ;;;
    say (MsgDryAgent agentID) ;;;
    when (negb (String.eqb (slingSubject f) "")) (say (MsgDrySubject (slingSubject f))) ;;;
    when (negb (String.eqb (slingMessage f) "")) (say (MsgDryContext (slingMessage f))) ;;;
    say MsgWouldTriggerHandoff
  else
    wrap "writing wisp: " (WriteSlungWork cloneRoot agentID sw) ;;;
    say MsgWorkAttached ;;;
    triggerHandoff f agentID beadID.

End Sling.

(** ** [convoy_queue.go]: the [convoy queue] command *)

(** The issue store and the town's routing, as [runConvoyQueue] uses them.
    Reading is a function of the store's state; [enqueueBead] is the one
    call that changes it. *)
Class BeadsAPI (Store : Type) : Type := {
  (** [filepath.Join(townRoot, ".beads")] *)
  townBeadsDir : string -> string;
  getTrackedIssues : Store -> string -> string -> Res (list trackedIssueInfo);
  getBeadInfo : Store -> string -> Res beadInfo;
  hasQueuedLabel : list string -> bool;
  resolveRigForBead : string -> string -> string;
  ExtractPrefix : string -> string;
  enqueueBead : Store -> string -> string -> EnqueueOptions -> option string * Store
}.

Record QueueFlags : Type := mkQueueFlags {
  convoyQueueDryRun : bool;
  convoyQueueForce  : bool
}.

(** The loop variables of the filter loop. *)
Record queueScan : Type := mkScan {
  candidates      : list queueCandidate;
  skippedClosed   : nat;
  skippedAssigned : nat;
  skippedQueued   : nat;
  skippedNoRig    : nat
}.

Definition scanStart : queueScan := mkScan [] 0 0 0 0.

Definition anySkipped (sc : queueScan) : bool :=
  (0 <? skippedClosed sc)%nat || (0 <? skippedAssigned sc)%nat ||
  (0 <? skippedQueued sc)%nat || (0 <? skippedNoRig sc)%nat.

Definition saySkipped {S} (sc : queueScan) : M S unit :=
  when (anySkipped sc)
    (say (MsgSkipped (skippedClosed sc) (skippedAssigned sc)
                     (skippedQueued sc) (skippedNoRig sc))).

(** [for _, x := range l { acc = body(acc, x) }] *)
Fixpoint forEach {S A B} (l : list A) (body : B -> A -> M S B) (acc : B) : M S B :=
  match l with
  | [] => ret acc
  | x :: rest => acc' <- body acc x ;; forEach rest body acc'
  end.

Section ConvoyQueue.
Context {Store : Type} `{BeadsAPI Store}.
Context (h : Host).

Definition readBeadInfo (id : string) : M Store (Res beadInfo) :=
  fun s => (Ok (getBeadInfo s id), s, []).

Definition placeBead (id rig : string) (opts : EnqueueOptions)
  : M Store (option string) :=
  fun s =>
    match enqueueBead s id rig opts with
    | (err, s') => (Ok err, s', [EvEnqueueBead id rig opts])
    end.

(** The body of the filter loop (one tracked issue). *)
Definition scanIssue (townRoot : string) (force : bool)
    (sc : queueScan) (t : trackedIssueInfo) : M Store queueScan :=
  if String.eqb (Status t) "closed" || String.eqb (Status t) "tombstone" then
    ret (mkScan (candidates sc) (S (skippedClosed sc)) (skippedAssigned sc)
                (skippedQueued sc) (skippedNoRig sc))
  else if negb (String.eqb (Assignee t) "") && negb force then
    ret (mkScan (candidates sc) (skippedClosed sc) (S (skippedAssigned sc))
                (skippedQueued sc) (skippedNoRig sc))
  else
    info <- readBeadInfo (ID t) ;;
    match info with
    | Err e => say (MsgCouldNotCheck (ID t) e) ;;; ret sc
    | Ok info =>
        if hasQueuedLabel (Labels info) then
          ret (mkScan (candidates sc) (skippedClosed sc) (skippedAssigned sc)
                      (S (skippedQueued sc)) (skippedNoRig sc))
        else
          let rigName := resolveRigForBead townRoot (ID t) in
          if String.eqb rigName "" then
            say (MsgNoRig (ID t) (ExtractPrefix (ID t))) ;;;
            ret (mkScan (candidates sc) (skippedClosed sc) (skippedAssigned sc)
                        (skippedQueued sc) (S (skippedNoRig sc)))
          else
            ret (mkScan (candidates sc ++ [mkCandidate (ID t) (Title t) rigName])
                        (skippedClosed sc) (skippedAssigned sc)
                        (skippedQueued sc) (skippedNoRig sc))
    end.

(** The body of the placement loop (one candidate). *)
Definition placeCandidate (force : bool) (successCount : nat)
    (c : queueCandidate) : M Store nat :=
  err <- placeBead (c_ID c) (c_RigName c)
           (mkEnqueueOptions "mol-polecat-work" true force) ;;
  match err with
  | Some e => say (MsgEnqueueFailed (c_ID c) e) ;;; ret successCount
  | None => ret (S successCount)
  end.

(** The filter loop over the tracked issues. *)
Definition filterTracked (townRoot : string) (force : bool)
    (tracked : list trackedIssueInfo) : M Store queueScan :=
  forEach tracked (scanIssue townRoot force) scanStart.

(** The placement loop over the candidates. *)
Definition placeCandidates (force : bool) (cands : list queueCandidate)
  : M Store nat :=
  forEach cands (placeCandidate force) 0.

Definition runConvoyQueue (f : QueueFlags) (convoyID : string) : M Store unit :=
  townRoot <- liftRes (FindFromCwdOrError h) ;;
  orFail ("convoy '" +:+ convoyID +:+ "' not found")
         (verifyBeadExists h convoyID) ;;;
  tracked <- wrap "getting tracked issues: "
               (fun s => (getTrackedIssues s (townBeadsDir townRoot) convoyID, s, [])) ;;
  if (List.length tracked =? 0)%nat then say (MsgNoTracked convoyID)
  else
    sc <- filterTracked townRoot (convoyQueueForce f) tracked ;;
    if (List.length (candidates sc) =? 0)%nat then
      say (MsgNoIssues convoyID) ;;;
      saySkipped sc
    else if convoyQueueDryRun f then
      say (MsgWouldQueueHeader (List.length (candidates sc)) convoyID) ;;;
      forEach (candidates sc)
        (fun _ c => say (MsgWouldQueue (c_ID c) (c_RigName c) (c_Title c))) tt ;;;
      saySkipped sc
    else
      say (MsgQueuing (List.length (candidates sc)) convoyID) ;;;
      successCount <- placeCandidates (convoyQueueForce f) (candidates sc) ;;
      say (MsgQueued successCount (List.length (candidates sc)) convoyID) ;;;
      saySkipped sc.

End ConvoyQueue.

(** ** The issue store's failure text *)



(** ** Reading a run's event log *)

(** The issues a dry run lists as the ones it would queue. *)
Definition previewed (tr : list Event) : list (string * string) :=
  omap (fun e => match e with
                 | Printed (MsgWouldQueue id rig _) => Some (id, rig)
                 | _ => None
                 end) tr.

(** The placements a run attempts, in order. *)
Definition attempted (tr : list Event) : list (string * string) :=
  omap (fun e => match e with
                 | EvEnqueueBead id rig _ => Some (id, rig)
                 | _ => None
                 end) tr.

(** The placement failures a run reports, in order. *)
Definition reportedFailures (tr : list Event) : list (string * string) :=
  omap (fun e => match e with
                 | Printed (MsgEnqueueFailed id err) => Some (id, err)
                 | _ => None
                 end) tr.

(** The skip counters a run reports: closed, assigned, already queued,
    no rig. *)
Definition skipReports (tr : list Event) : list (nat * nat * nat * nat) :=
  omap (fun e => match e with
                 | Printed (MsgSkipped c a q n) => Some (c, a, q, n)
                 | _ => None
                 end) tr.

Definition isRestart (e : Event) : bool :=
  match e with EvRespawnPane _ _ => true | _ => false end.

Definition isHookWrite (e : Event) : bool :=
  match e with EvWriteSlungWork _ _ _ => true | _ => false end.

Definition candidateKey (c : queueCandidate) : string * string :=
  (c_ID c, c_RigName c).

(** ** A small town to run the commands in *)

Module Town.

(** The store's state: the ids that are already in a rig's backlog. *)
Definition Store : Type := list string.

Definition inBacklog (s : Store) (id : string) : bool :=
  existsb (String.eqb id) s.

Definition tracked : list trackedIssueInfo :=
  [ mkTracked "gt-a" "Fix parser" "closed" "";
    mkTracked "bd-b" "Add index" "open" "";
    mkTracked "hq-1" "Town chore" "open" "";
    mkTracked "gt-c" "Tune cache" "in_progress" "gastown/polecats/nux";
    mkTracked "gt-lost" "Lost bead" "open" "";
    mkTracked "bd-full" "Port tests" "open" "";
    mkTracked "gt-d" "Write docs" "open" "" ].

#[global] Instance api : BeadsAPI Store := {
  townBeadsDir root := root +:+ "/.beads";
  getTrackedIssues _ _ convoy :=
    if String.eqb convoy "hq-cv-1" then Ok tracked
    else if String.eqb convoy "hq-cv-2" then
      Ok [mkTracked "gt-lost" "Lost bead" "open" ""]
    else Ok [];
  getBeadInfo s id :=
    if String.eqb id "gt-lost"
    then Err "signal SIGSEGV: segmentation violation"
    else Ok (mkBeadInfo (if inBacklog s id then ["gt:queued"] else []));
  hasQueuedLabel labels := existsb (String.eqb "gt:queued") labels;
  resolveRigForBead _ id :=
    if HasPrefix id "gt-" then "gastown"
    else if HasPrefix id "bd-" then "beads" else "";
  ExtractPrefix id := match Split id "-"%char with p :: _ => p | [] => "" end;
  enqueueBead s id _ _ :=
    if String.eqb id "bd-full" then (Some "rig backlog unavailable", s)
    else (None, id :: s)
}.

Definition env (vars : list (string * string)) : gmap string string :=
  list_to_map vars.

(** Crew member joe of rig rigA, in his own tmux session. *)
Definition joe : Host := {|
  environ := env [("GT_RIG", "rigA"); ("GT_CREW", "joe");
                  ("TMUX", "/tmp/tmux-0/default,1,0"); ("TMUX_PANE", "%3")];
  IsInsideTmux := true;
  tmuxSessionName := Ok ("gt-rigA-crew-joe" +:+ String newline "");
  detectCrewFromCwd := Ok (mkCrew "rigA" "joe");
  gitToplevel := Ok ("/town/rigA/crew/joe" +:+ String newline "");
  bdShow := fun id => if String.eqb id "gt-gone" then Some "issue not found" else None;
  HasSession := fun s => Ok (String.eqb s "gt-mayor" || String.eqb s "gt-rigA-crew-joe");
  tmuxListPanes := fun _ => Ok ("%7" +:+ String newline "%8" +:+ String newline "");
  respawnError := fun _ _ => None;
  switchClientError := fun _ => None;
  writeWispError := fun _ _ _ => None;
  handoffMailError := fun _ _ => None;
  FindFromCwdOrError := Ok "/town";
  now := 42
|}.

(** Polecat nux of rig gastown. *)
Definition nux : Host := {|
  environ := env [("GT_RIG", "gastown"); ("GT_POLECAT", "nux");
                  ("TMUX", "/tmp/tmux-0/default,2,0"); ("TMUX_PANE", "%5")];
  IsInsideTmux := true;
  tmuxSessionName := Ok ("gt-gastown-nux" +:+ String newline "");
  detectCrewFromCwd := Err "not in a crew directory";
  gitToplevel := Ok ("/town/gastown/polecats/nux" +:+ String newline "");
  bdShow := fun _ => None;
  HasSession := fun _ => Ok true;
  tmuxListPanes := fun _ => Ok "%5";
  respawnError := fun _ _ => None;
  switchClientError := fun _ => None;
  writeWispError := fun _ _ _ => None;
  handoffMailError := fun _ _ => None;
  FindFromCwdOrError := Ok "/town";
  now := 43
|}.

(** A host whose issue store crashes on every [bd show], with the failure
    text of the segmentation-fault row of [doltOrWispErrorTests]. *)
Definition crashed : Host := {|
  environ := environ joe;
  IsInsideTmux := true;
  tmuxSessionName := tmuxSessionName joe;
  detectCrewFromCwd := detectCrewFromCwd joe;
  gitToplevel := gitToplevel joe;
  bdShow := fun _ => Some "bd create: signal SIGSEGV: segmentation violation";
  HasSession := HasSession joe;
  tmuxListPanes := tmuxListPanes joe;
  respawnError := fun _ _ => None;
  switchClientError := fun _ => None;
  writeWispError := fun _ _ _ => None;
  handoffMailError := fun _ _ => None;
  FindFromCwdOrError := Ok "/town";
  now := 44
|}.

End Town.

(** ** Vocabulary of the properties *)

(** [recycle], called with [args], gets as far as targeting a session other
    than the caller's own: it runs inside tmux with a pane, knows its own
    session, resolves the role token to [target], and has the restart
    command [restartCmd] for it. *)
Definition targetsOtherSession (h : Host) (args : list string)
    (target restartCmd : string) : Prop :=
  IsInsideTmux h = true /\
  Getenv h "TMUX_PANE" <> "" /\
  exists current role rest,
    args = role :: rest /\
    getCurrentTmuxSession h = Ok current /\
    resolveRoleToSession h role = Ok target /\
    buildRestartCommand target = Ok restartCmd /\
    target <> current.

(** The four skip categories, in the order of their precedence. *)
Inductive skipReason : Type :=
| SkipClosed
| SkipAssigned
| SkipQueued
| SkipNoRig.

(** Where a tracked issue ends up: counted under a skip category, listed as
    a candidate, or dropped because its labels could not be read. *)
Inductive dispatchClass : Type :=
| Skipped (r : skipReason)
| Candidate (c : queueCandidate)
| Dropped (err : string).

Definition countSkip (r : skipReason) (sc : queueScan) : queueScan :=
  match r with
  | SkipClosed =>
      mkScan (candidates sc) (S (skippedClosed sc)) (skippedAssigned sc)
             (skippedQueued sc) (skippedNoRig sc)
  | SkipAssigned =>
      mkScan (candidates sc) (skippedClosed sc) (S (skippedAssigned sc))
             (skippedQueued sc) (skippedNoRig sc)
  | SkipQueued =>
      mkScan (candidates sc) (skippedClosed sc) (skippedAssigned sc)
             (S (skippedQueued sc)) (skippedNoRig sc)
  | SkipNoRig =>
      mkScan (candidates sc) (skippedClosed sc) (skippedAssigned sc)
             (skippedQueued sc) (S (skippedNoRig sc))
  end.

Definition tally (c : dispatchClass) (sc : queueScan) : queueScan :=
  match c with
  | Skipped r => countSkip r sc
  | Candidate c =>
      mkScan (candidates sc ++ [c]) (skippedClosed sc) (skippedAssigned sc)
             (skippedQueued sc) (skippedNoRig sc)
  | Dropped _ => sc
  end.

(** The issues in the five buckets of a scan. *)
Definition fiveBuckets (sc : queueScan) : nat :=
  skippedClosed sc + skippedAssigned sc + skippedQueued sc + skippedNoRig sc
  + List.length (candidates sc).

Definition isSkipped (r : skipReason) (c : dispatchClass) : bool :=
  match c, r with
  | Skipped SkipClosed, SkipClosed
  | Skipped SkipAssigned, SkipAssigned
  | Skipped SkipQueued, SkipQueued
  | Skipped SkipNoRig, SkipNoRig => true
  | _, _ => false
  end.

Definition isDropped (c : dispatchClass) : bool :=
  match c with Dropped _ => true | _ => false end.

Definition candidateOf (c : dispatchClass) : option queueCandidate :=
  match c with Candidate c => Some c | _ => None end.

(** The skip summary, printed when any counter is positive. *)
Definition skipNotice (sc : queueScan) : list Event :=
  if anySkipped sc
  then [Printed (MsgSkipped (skippedClosed sc) (skippedAssigned sc)
                            (skippedQueued sc) (skippedNoRig sc))]
  else [].

Definition wouldQueueNotice (c : queueCandidate) : Event :=
  Printed (MsgWouldQueue (c_ID c) (c_RigName c) (c_Title c)).

Section DispatchVocabulary.
Context {Store : Type} `{BeadsAPI Store}.
Context (s : Store) (townRoot : string) (force : bool).

(** The four skip conditions of the spec, each on its own. *)
Definition isClosed (t : trackedIssueInfo) : bool :=
  String.eqb (Status t) "closed" || String.eqb (Status t) "tombstone".

Definition isAssigned (t : trackedIssueInfo) : bool :=
  negb (String.eqb (Assignee t) "") && negb force.

Definition isQueued (t : trackedIssueInfo) : bool :=
  match getBeadInfo s (ID t) with
  | Ok info => hasQueuedLabel (Labels info)
  | Err _ => false
  end.

Definition hasNoRig (t : trackedIssueInfo) : bool :=
  String.eqb (resolveRigForBead townRoot (ID t)) "".

(** Every skip condition an issue satisfies, highest precedence first. *)
Definition skipReasons (t : trackedIssueInfo) : list skipReason :=
  (if isClosed t then [SkipClosed] else []) ++
  (if isAssigned t then [SkipAssigned] else []) ++
  (if isQueued t then [SkipQueued] else []) ++
  (if hasNoRig t then [SkipNoRig] else []).

(** The spec's steps 1 to 5, with the failed label lookup between steps 2
    and 3. *)
Definition classOf (t : trackedIssueInfo) : dispatchClass :=
  if isClosed t then Skipped SkipClosed
  else if isAssigned t then Skipped SkipAssigned
  else match getBeadInfo s (ID t) with
       | Err e => Dropped e
       | Ok info =>
           if hasQueuedLabel (Labels info) then Skipped SkipQueued
           else if hasNoRig t then Skipped SkipNoRig
           else Candidate (mkCandidate (ID t) (Title t)
                                       (resolveRigForBead townRoot (ID t)))
       end.

(** What the filter loop prints for an issue of a given class. *)
Definition notices (t : trackedIssueInfo) (c : dispatchClass) : list Event :=
  match c with
  | Dropped e => [Printed (MsgCouldNotCheck (ID t) e)]
  | Skipped SkipNoRig => [Printed (MsgNoRig (ID t) (ExtractPrefix (ID t)))]
  | _ => []
  end.

(** The scan variables after a list of issues has been classified. *)
Definition tallyAll (tracked : list trackedIssueInfo) (sc : queueScan)
  : queueScan :=
  fold_left (fun sc t => tally (classOf t) sc) tracked sc.

Definition noticesAll (tracked : list trackedIssueInfo) : list Event :=
  flat_map (fun t => notices t (classOf t)) tracked.

Definition countClass (p : dispatchClass -> bool)
    (tracked : list trackedIssueInfo) : nat :=
  List.length (List.filter (fun t => p (classOf t)) tracked).

End DispatchVocabulary.

Section PlacementVocabulary.
Context {Store : Type} `{BeadsAPI Store}.

Definition placementOptions (force : bool) : EnqueueOptions :=
  mkEnqueueOptions "mol-polecat-work" true force.

(** What the store answers to each placement when the candidates are
    placed one after the other, each on the store the previous one left. *)
Fixpoint placementOutcomes (force : bool) (s : Store)
    (cands : list queueCandidate) : list (queueCandidate * option string) :=
  match cands with
  | [] => []
  | c :: rest =>
      let r := enqueueBead s (c_ID c) (c_RigName c) (placementOptions force) in
      (c, r.1) :: placementOutcomes force r.2 rest
  end.

Fixpoint storeAfterPlacements (force : bool) (s : Store)
    (cands : list queueCandidate) : Store :=
  match cands with
  | [] => s
  | c :: rest =>
      storeAfterPlacements force
        (enqueueBead s (c_ID c) (c_RigName c) (placementOptions force)).2 rest
  end.

(** What the placement loop does for one candidate: the call, and the
    report if it failed. *)
Definition placementEvents (force : bool)
    (o : queueCandidate * option string) : list Event :=
  EvEnqueueBead (c_ID o.1) (c_RigName o.1) (placementOptions force)
  :: match o.2 with
     | Some e => [Printed (MsgEnqueueFailed (c_ID o.1) e)]
     | None => []
     end.

(** The placements that succeeded. *)
Definition placed (outcomes : list (queueCandidate * option string)) : nat :=
  List.length (List.filter (fun o => match o.2 with
                                     | None => true
                                     | Some _ => false
                                     end) outcomes).

Definition placementFailure (o : queueCandidate * option string)
  : option (string * string) :=
  match o.2 with
  | Some e => Some (c_ID o.1, e)
  | None => None
  end.

End PlacementVocabulary.

(** ** Vocabulary of the further properties *)

(** The role tokens [resolveRoleToSession] knows. *)
Definition roleKeywords : list string :=
  ["mayor"; "may"; "deacon"; "dea"; "crew"; "witness"; "wit"; "refinery"; "ref"].

Definition isRoleKeyword (r : string) : bool :=
  existsb (String.eqb r) roleKeywords.

(** An event that acts on the world, as opposed to a printed line. *)
Definition isEffect (e : Event) : bool :=
  match e with Printed _ => false | _ => true end.

Definition isSwitch (e : Event) : bool :=
  match e with EvSwitchClient _ => true | _ => false end.

Definition isMail (e : Event) : bool :=
  match e with EvHandoffMail _ _ => true | _ => false end.

(** The same host with another answer of [tmux switch-client]. *)
Definition withSwitchClientError (h : Host) (g : string -> option string) : Host :=
  mkHost (environ h) (IsInsideTmux h) (tmuxSessionName h) (detectCrewFromCwd h)
         (gitToplevel h) (bdShow h) (HasSession h) (tmuxListPanes h)
         (respawnError h) g (writeWispError h) (handoffMailError h)
         (FindFromCwdOrError h) (now h).

(** The same host with another answer of the mail sender. *)
Definition withHandoffMailError (h : Host)
    (g : string -> string -> option string) : Host :=
  mkHost (environ h) (IsInsideTmux h) (tmuxSessionName h) (detectCrewFromCwd h)
         (gitToplevel h) (bdShow h) (HasSession h) (tmuxListPanes h)
         (respawnError h) (switchClientError h) (writeWispError h) g
         (FindFromCwdOrError h) (now h).

(** A witness started in a rig whose name holds the crew marker. *)
Definition yardWitness : Host := {|
  environ := Town.env [("GT_RIG", "east-crew-yard");
                       ("TMUX", "/tmp/tmux-0/default,3,0"); ("TMUX_PANE", "%9")];
  IsInsideTmux := true;
  tmuxSessionName := Ok ("gt-east-crew-yard-witness" +:+ String newline "");
  detectCrewFromCwd := Err "not in a crew directory";
  gitToplevel := Ok ("/town/east-crew-yard/witness" +:+ String newline "");
  bdShow := fun _ => None;
  HasSession := fun _ => Ok true;
  tmuxListPanes := fun _ => Ok "%9";
  respawnError := fun _ _ => None;
  switchClientError := fun _ => Some "no current client";
  writeWispError := fun _ _ _ => None;
  handoffMailError := fun _ _ => Some "mail router down";
  FindFromCwdOrError := Ok "/town";
  now := 45
|}.

(** The witness of rig gastown, in its own session. *)
Definition gastownWitness : Host := {|
  environ := Town.env [("GT_RIG", "gastown");
                       ("TMUX", "/tmp/tmux-0/default,4,0"); ("TMUX_PANE", "%11")];
  IsInsideTmux := true;
  tmuxSessionName := Ok ("gt-gastown-witness" +:+ String newline "");
  detectCrewFromCwd := Err "not in a crew directory";
  gitToplevel := Ok ("/town/gastown/witness" +:+ String newline "");
  bdShow := fun _ => None;
  HasSession := fun _ => Ok true;
  tmuxListPanes := fun _ => Ok "%11";
  respawnError := fun _ _ => None;
  switchClientError := fun _ => None;
  writeWispError := fun _ _ _ => None;
  handoffMailError := fun _ _ => None;
  FindFromCwdOrError := Ok "/town";
  now := 46
|}.

(** Subject and body of the hand-off mail [triggerHandoff] sends. *)
Definition slungSubject (f : SlingFlags) (beadID : string) : string :=
  if String.eqb (slingSubject f) "" then "🎯 SLUNG: " +:+ beadID
  else "🎯 SLUNG: " +:+ slingSubject f.

Definition slungMessage (f : SlingFlags) (beadID : string) : string :=
  if String.eqb (slingMessage f) "" then
    "Work slung onto hook. Run bd show " +:+ beadID +:+ " for details."
  else slingMessage f.

(** The record [runSling] puts on the hook. *)
Definition slungWork (h : Host) (f : SlingFlags) (beadID agentID : string)
  : SlungWork :=
  mkSlungWork beadID agentID (slingSubject f) (slingMessage f) (now h).

(** What a dry run of [sling] prints. *)
Definition slingPreview (f : SlingFlags) (beadID agentID cloneRoot : string)
  : list Event :=
  [Printed (MsgSlinging beadID); Printed (MsgWouldCreateWisp cloneRoot agentID);
   Printed (MsgDryBead beadID); Printed (MsgDryAgent agentID)]
  ++ (if negb (String.eqb (slingSubject f) "")
      then [Printed (MsgDrySubject (slingSubject f))] else [])
  ++ (if negb (String.eqb (slingMessage f) "")
      then [Printed (MsgDryContext (slingMessage f))] else [])
  ++ [Printed MsgWouldTriggerHandoff].

(** * Properties *)

(** ** Event logs *)

(** Unfolds the monad's plumbing, leaving the calls to the host. *)
Ltac run_monad :=
  cbv beta iota delta
    [bind ret failWith emit say liftRes wrap orFail when result final trace fst snd] in *.

(** Finds where an event sits in an explicitly given log. *)
Ltac locate_event :=
  repeat match goal with
  | H : [] = ?pre ++ _ :: _ |- _ => destruct pre; discriminate H
  | H : _ :: _ = ?pre ++ _ :: _ |- _ =>
      let e := fresh "e" in
      destruct pre as [|e pre]; cbn [app] in H;
      [ try discriminate H; simplify_eq
      | let He := fresh "He" in injection H as He H; try subst e ]
  end.

Lemma negb_eqb_false (a b : string) : negb (String.eqb a b) = false -> a = b.
Proof. intros E. apply String.eqb_eq. by destruct (String.eqb a b). Qed.

Section SlingFacts.
Context (h : Host).

Lemma triggerHandoff_keeps_state {S} f agent bead (s : S) :
  final (triggerHandoff h f agent bead s) = s.
Proof.
  unfold triggerHandoff, sendHandoffMail, RespawnPane. run_monad.
  repeat case_match; simplify_eq; reflexivity.
Qed.

(** [triggerHandoff] restarts as its very last act, writes no hook, and
    restarts only when [GT_POLECAT] is unset. *)
Lemma triggerHandoff_restart_last {S} f agent bead (s : S) pre post pane cmd :
  trace (triggerHandoff h f agent bead s) = pre ++ EvRespawnPane pane cmd :: post ->
  post = [] /\
  Forall (fun e => isRestart e = false /\ isHookWrite e = false) pre /\
  Getenv h "GT_POLECAT" = "".
Proof.
  unfold triggerHandoff, sendHandoffMail, RespawnPane. run_monad.
  repeat case_match; simplify_eq; cbn [app]; intros Htr; locate_event.
  all: split_and!; auto using negb_eqb_false.
  all: repeat constructor.
Qed.

(** What a restart in the log of [sling] tells about the run. *)
Lemma runSling_restart (f : SlingFlags) (beadID : string) (hooks : Hooks)
    (pre post : list Event) (pane cmd : string) :
  trace (runSling h f beadID hooks) = pre ++ EvRespawnPane pane cmd :: post ->
  Getenv h "GT_POLECAT" = "" /\
  exists root agent sw,
    detectAgentIdentity h = Ok agent /\
    sw_BeadID sw = beadID /\ sw_Agent sw = agent /\
    EvWriteSlungWork root agent sw ∈ pre /\
    writeWispError h root agent sw = None /\
    final (runSling h f beadID hooks) !! (root, agent) = Some sw /\
    Forall (fun e => isRestart e = false) pre /\
    Forall (fun e => isHookWrite e = false) post.
Proof.
  unfold runSling, verifyBeadExists, WriteSlungWork, NewSlungWork.
  run_monad.
  destruct (bdShow h beadID); [cbn [app]; intros; locate_event|].
  destruct (detectAgentIdentity h) as [agent|] eqn:Hagent;
    [|cbn [app]; intros; locate_event].
  destruct (detectCloneRoot h) as [root|]; [|cbn [app]; intros; locate_event].
  destruct (slingDryRun f).
  { repeat case_match; simplify_eq; cbn [app]; intros; locate_event. }
  destruct (writeWispError h root agent _) eqn:Hwrite;
    [cbn [app]; intros; locate_event|].
  pose proof (triggerHandoff_keeps_state f agent beadID
                (<[(root, agent) := mkSlungWork beadID agent (slingSubject f)
                                      (slingMessage f) (now h)]> hooks)) as Hkeep.
  pose proof (triggerHandoff_restart_last f agent beadID
                (<[(root, agent) := mkSlungWork beadID agent (slingSubject f)
                                      (slingMessage f) (now h)]> hooks)) as Hlast.
  unfold trace, final in Hkeep, Hlast. cbn [sw_BeadID sw_Agent sw_CreatedAt] in *.
  destruct (triggerHandoff h f agent beadID _) as [[r s2] t2].
  cbn [fst snd app] in *. subst s2. intros Htr. locate_event.
  destruct (Hlast _ _ _ _ Htr) as (-> & Hpre & Hpolecat).
  split; [exact Hpolecat|].
  exists root, agent,
    (mkSlungWork beadID agent (slingSubject f) (slingMessage f) (now h)).
  split_and!; try reflexivity; try done.
  - repeat constructor.
  - by rewrite lookup_insert_eq.
  - repeat constructor. eapply Forall_impl; [exact Hpre|]. by intros ? [? ?].
Qed.

(** C1. In [sling], whenever the restart command is issued, the hook for
    the detected identity has been written before it: the write is in the
    log ahead of the restart, it succeeded, the slot holds the record for
    the slung bead, nothing restarts before the write and nothing is
    written after the restart. *)
Theorem sling_hook_written_before_restart
    (f : SlingFlags) (beadID : string) (hooks : Hooks)
    (pre post : list Event) (pane cmd : string) :
  trace (runSling h f beadID hooks) = pre ++ EvRespawnPane pane cmd :: post ->
  exists root agent sw,
    detectAgentIdentity h = Ok agent /\
    sw_BeadID sw = beadID /\ sw_Agent sw = agent /\
    EvWriteSlungWork root agent sw ∈ pre /\
    writeWispError h root agent sw = None /\
    final (runSling h f beadID hooks) !! (root, agent) = Some sw /\
    Forall (fun e => isRestart e = false) pre /\
    Forall (fun e => isHookWrite e = false) post.
Proof. intros Htr. exact (proj2 (runSling_restart _ _ _ _ _ _ _ Htr)). Qed.

(** With [GT_POLECAT] set, [sling] never restarts anything. *)
Lemma sling_polecat_never_restarts (f : SlingFlags) (beadID : string) (hooks : Hooks) :
  Getenv h "GT_POLECAT" <> "" ->
  Forall (fun e => isRestart e = false) (trace (runSling h f beadID hooks)).
Proof.
  intros Hpolecat. apply Forall_forall. intros e Hin.
  destruct e; try reflexivity.
  apply list_elem_of_split in Hin as (pre & post & Htr).
  by destruct (runSling_restart _ _ _ _ _ _ _ Htr) as [? _].
Qed.

(** With [GT_POLECAT] set, a [sling] that gets as far as the hook still
    writes it, and only then refuses. *)
Lemma sling_polecat_writes_then_refuses (f : SlingFlags) (beadID : string)
    (hooks : Hooks) (agent root : string) :
  Getenv h "GT_POLECAT" <> "" ->
  bdShow h beadID = None ->
  detectAgentIdentity h = Ok agent ->
  detectCloneRoot h = Ok root ->
  slingDryRun f = false ->
  writeWispError h root agent
    (mkSlungWork beadID agent (slingSubject f) (slingMessage f) (now h)) = None ->
  runSling h f beadID hooks =
    (Err "polecats cannot sling - use gt done for handoff",
     <[(root, agent) := mkSlungWork beadID agent (slingSubject f)
                          (slingMessage f) (now h)]> hooks,
     [Printed (MsgSlinging beadID);
      EvWriteSlungWork root agent
        (mkSlungWork beadID agent (slingSubject f) (slingMessage f) (now h));
      Printed MsgWorkAttached; Printed MsgPolecatDetected]).
Proof.
  intros Hpolecat Hshow Hagent Hroot Hdry Hwrite.
  apply String.eqb_neq in Hpolecat.
  unfold runSling, verifyBeadExists, WriteSlungWork, NewSlungWork, triggerHandoff.
  run_monad. rewrite Hshow, Hagent, Hroot, Hdry. cbn [sw_BeadID sw_Agent sw_CreatedAt].
  rewrite Hwrite, Hpolecat. reflexivity.
Qed.

(** [verifyBeadExists] changes nothing and has one error for every way
    [bd show] can fail. *)
Lemma verifyBeadExists_run {S} (id : string) (s : S) :
  verifyBeadExists h id s =
    (match bdShow h id with
     | Some _ => Err ("bead '" +:+ id +:+ "' not found (bd show failed)")
     | None => Ok tt
     end, s, []).
Proof. unfold verifyBeadExists. by destruct (bdShow h id). Qed.

End SlingFacts.

(** C1, on a run: crew member joe slings [gt-x]; the hook write comes
    second in the log, the restart last. *)
Lemma sling_hook_written_before_restart_witness :
  exists root agent sw,
    detectAgentIdentity Town.joe = Ok agent /\
    sw_BeadID sw = "gt-x" /\ sw_Agent sw = agent /\
    EvWriteSlungWork root agent sw ∈
      [Printed (MsgSlinging "gt-x");
       EvWriteSlungWork "/town/rigA/crew/joe" "rigA/crew/joe"
         (mkSlungWork "gt-x" "rigA/crew/joe" "" "" 42);
       Printed MsgWorkAttached;
       EvHandoffMail "🎯 SLUNG: gt-x"
         "Work slung onto hook. Run bd show gt-x for details.";
       Printed MsgSentMail; Printed MsgRestarting] /\
    writeWispError Town.joe root agent sw = None /\
    final (runSling Town.joe (mkSlingFlags "" "" false) "gt-x" ∅)
      !! (root, agent) = Some sw /\
    Forall (fun e => isRestart e = false)
      [Printed (MsgSlinging "gt-x");
       EvWriteSlungWork "/town/rigA/crew/joe" "rigA/crew/joe"
         (mkSlungWork "gt-x" "rigA/crew/joe" "" "" 42);
       Printed MsgWorkAttached;
       EvHandoffMail "🎯 SLUNG: gt-x"
         "Work slung onto hook. Run bd show gt-x for details.";
       Printed MsgSentMail; Printed MsgRestarting] /\
    Forall (fun e => isHookWrite e = false) [].
Proof.
  apply (sling_hook_written_before_restart Town.joe (mkSlingFlags "" "" false)
           "gt-x" ∅ _ [] "%3" "gt crew at").
  vm_compute. reflexivity.
Defined.

(** C6, at the failing input: polecat nux of rig gastown slings [gt-x] on
    an empty hook.  The run ends with the polecat refusal and without a
    restart, but the hook has been written by then. *)
Theorem sling_polecat_leaves_hook_written :
  let run := runSling Town.nux (mkSlingFlags "" "" false) "gt-x" ∅ in
  result run = Err "polecats cannot sling - use gt done for handoff" /\
  (∅ : Hooks) !! ("/town/gastown/polecats/nux", "gastown/polecats/nux") = None /\
  final run !! ("/town/gastown/polecats/nux", "gastown/polecats/nux")
    = Some (mkSlungWork "gt-x" "gastown/polecats/nux" "" "" 43) /\
  trace run =
    [Printed (MsgSlinging "gt-x");
     EvWriteSlungWork "/town/gastown/polecats/nux" "gastown/polecats/nux"
       (mkSlungWork "gt-x" "gastown/polecats/nux" "" "" 43);
     Printed MsgWorkAttached; Printed MsgPolecatDetected].
Proof. vm_compute. split_and!; reflexivity. Qed.

(** ** The existence check and the store's failure text *)

Lemma Contains_app_r (p s sub : string) :
  Contains s sub = true -> Contains (p +:+ s) sub = true.
Proof.
  intros Hs. induction p as [|c p IH]; [exact Hs|].
  change (String c p +:+ s) with (String c (p +:+ s)).
  cbn [Contains]. rewrite IH. apply orb_true_r.
Qed.





(** ** [recycle] *)

Section RecycleFacts.
Context (h : Host).

(** Past the checks of [runRecycle], a different target is handed to
    [recycleRemoteSession]. *)
Lemma runRecycle_other_session {S} (f : RecycleFlags) (args : list string)
    (target cmd : string) (s : S) :
  targetsOtherSession h args target cmd ->
  runRecycle h f args s = recycleRemoteSession h f target cmd s.
Proof.
  intros (Htmux & Hpane & current & role & rest & -> & Hcur & Hrole & Hcmd & Hne).
  apply String.eqb_neq in Hpane, Hne.
  unfold runRecycle. run_monad.
  rewrite Htmux, Hpane, Hcur, Hrole, Hcmd, Hne. cbn [negb].
  by destruct (recycleRemoteSession h f target cmd s) as [[[] ?] ?].
Qed.

Lemma recycleRemoteSession_missing {S} (f : RecycleFlags)
    (target cmd : string) (s : S) :
  HasSession h target = Ok false ->
  recycleRemoteSession h f target cmd s =
    (Err ("session '" +:+ target +:+ "' not found - is the agent running?"), s, []).
Proof. intros Hmissing. unfold recycleRemoteSession. run_monad. by rewrite Hmissing. Qed.

Lemma recycleRemoteSession_watch {S} (f : RecycleFlags)
    (target cmd pane : string) (s : S) :
  recycleWatch f = true ->
  recycleDryRun f = false ->
  HasSession h target = Ok true ->
  getSessionPane h target = Ok pane ->
  respawnError h pane cmd = None ->
  recycleRemoteSession h f target cmd s =
    (Ok tt, s,
     [Printed (MsgRecycling target); EvRespawnPane pane cmd;
      Printed (MsgSwitching target); EvSwitchClient target]
     ++ match switchClientError h target with
        | Some _ => [Printed (MsgCouldNotSwitch target)]
        | None => []
        end).
Proof.
  intros Hwatch Hdry Hlive Hpane Hrespawn.
  unfold recycleRemoteSession, RespawnPane, switchClient. run_monad.
  rewrite Hlive, Hpane, Hdry, Hrespawn, Hwatch. cbn [negb].
  by destruct (switchClientError h target).
Qed.

Lemma buildRestartCommand_error (sessionName e : string) :
  buildRestartCommand sessionName = Err e ->
  e = "unknown session type: " +:+ sessionName
      +:+ " (try specifying role explicitly)".
Proof. unfold buildRestartCommand. repeat case_match; by intros [= <-]. Qed.

(** C8, amended.  When [recycle] targets a session other than the caller's
    own and that session does not exist, it always fails, and its log is
    empty: nothing is printed and no session is restarted.  The error is the
    session-not-found error when the run gets as far as the existence check;
    before that come, in this order, the check for tmux, for the pane, for
    the caller's own session name, and the restart command, which is built
    before the target is looked up: a target whose name matches no session
    pattern fails as an unknown session type. *)
Theorem recycle_missing_target_fails_without_restart {S} (f : RecycleFlags)
    (role : string) (rest : list string) (target : string) (s : S) :
  resolveRoleToSession h role = Ok target ->
  getCurrentTmuxSession h <> Ok target ->
  HasSession h target = Ok false ->
  runRecycle h f (role :: rest) s =
    (Err (if negb (IsInsideTmux h) then "not running in tmux - cannot recycle"
          else if String.eqb (Getenv h "TMUX_PANE") "" then
            "TMUX_PANE not set - cannot recycle"
          else
            match getCurrentTmuxSession h with
            | Err e => "getting session name: " +:+ e
            | Ok _ =>
                match buildRestartCommand target with
                | Err _ =>
                    "unknown session type: " +:+ target
                    +:+ " (try specifying role explicitly)"
                | Ok _ =>
                    "session '" +:+ target
                    +:+ "' not found - is the agent running?"
                end
            end),
     s, []).
Proof.
  intros Hrole Hother Hmissing. unfold runRecycle. run_monad.
  destruct (negb (IsInsideTmux h)); [reflexivity|].
  destruct (String.eqb (Getenv h "TMUX_PANE") ""); [reflexivity|].
  destruct (getCurrentTmuxSession h) as [current|]; [|reflexivity].
  rewrite Hrole.
  destruct (buildRestartCommand target) as [cmd|e] eqn:Hcmd.
  - destruct (String.eqb target current) eqn:Hsame.
    { apply String.eqb_eq in Hsame. by subst. }
    cbn [negb]. by rewrite recycleRemoteSession_missing.
  - by rewrite (buildRestartCommand_error _ _ Hcmd).
Qed.

(** C10. [--watch] is on unless given otherwise: a [recycle] without the
    flag, of a live session other than the caller's own, restarts the
    target's pane and then tries to switch the client to the target. *)
Theorem recycle_watches_by_default {S} (f : RecycleFlags)
    (args : list string) (target cmd pane : string) (s : S) :
  watchGiven f = None ->
  recycleDryRun f = false ->
  targetsOtherSession h args target cmd ->
  HasSession h target = Ok true ->
  getSessionPane h target = Ok pane ->
  respawnError h pane cmd = None ->
  recycleWatch f = true /\
  runRecycle h f args s =
    (Ok tt, s,
     [Printed (MsgRecycling target); EvRespawnPane pane cmd;
      Printed (MsgSwitching target); EvSwitchClient target]
     ++ match switchClientError h target with
        | Some _ => [Printed (MsgCouldNotSwitch target)]
        | None => []
        end).
Proof.
  intros Hflag Hdry Hother Hlive Hpane Hrespawn.
  assert (Hwatch : recycleWatch f = true) by (unfold recycleWatch; by rewrite Hflag).
  split; [exact Hwatch|].
  rewrite (runRecycle_other_session f args target cmd s Hother).
  by apply recycleRemoteSession_watch.
Qed.

End RecycleFacts.

(** C8, as stated, fails: joe recycles [gt-ghost], a session that is not
    his own and does not exist; the run stops at the restart command, as an
    unknown session type, and never says that the session was not found. *)
Lemma recycle_ghost_is_unknown_session_type :
  ~ (HasSession Town.joe "gt-ghost" = Ok false ->
     getCurrentTmuxSession Town.joe <> Ok "gt-ghost" ->
     result (runRecycle Town.joe (mkRecycleFlags None None) ["gt-ghost"] tt)
       = Err "session 'gt-ghost' not found - is the agent running?").
Proof.
  intros Hclaim.
  assert (Hother : getCurrentTmuxSession Town.joe <> Ok "gt-ghost")
    by (vm_compute; discriminate).
  specialize (Hclaim eq_refl Hother). vm_compute in Hclaim. discriminate Hclaim.
Qed.

(** C8 amended, on a run: no deacon session is running when joe recycles
    it. *)
Lemma recycle_missing_target_fails_without_restart_witness :
  runRecycle Town.joe (mkRecycleFlags None None) ["deacon"] tt =
    (Err (if negb (IsInsideTmux Town.joe) then "not running in tmux - cannot recycle"
          else if String.eqb (Getenv Town.joe "TMUX_PANE") "" then
            "TMUX_PANE not set - cannot recycle"
          else
            match getCurrentTmuxSession Town.joe with
            | Err e => "getting session name: " +:+ e
            | Ok _ =>
                match buildRestartCommand "gt-deacon" with
                | Err _ =>
                    "unknown session type: " +:+ "gt-deacon"
                    +:+ " (try specifying role explicitly)"
                | Ok _ =>
                    "session '" +:+ "gt-deacon"
                    +:+ "' not found - is the agent running?"
                end
            end),
     tt, []).
Proof.
  apply (recycle_missing_target_fails_without_restart Town.joe
           (mkRecycleFlags None None) "deacon" [] "gt-deacon" tt);
    [reflexivity | vm_compute; discriminate | reflexivity].
Defined.

(** C10, on a run: joe recycles the running mayor without [--watch]. *)
Lemma recycle_watches_by_default_witness :
  recycleWatch (mkRecycleFlags None None) = true /\
  runRecycle Town.joe (mkRecycleFlags None None) ["mayor"] tt =
    (Ok tt, tt,
     [Printed (MsgRecycling "gt-mayor"); EvRespawnPane "%7" "gt may at";
      Printed (MsgSwitching "gt-mayor"); EvSwitchClient "gt-mayor"]
     ++ match switchClientError Town.joe "gt-mayor" with
        | Some _ => [Printed (MsgCouldNotSwitch "gt-mayor")]
        | None => []
        end).
Proof.
  apply (recycle_watches_by_default Town.joe (mkRecycleFlags None None)
           ["mayor"] "gt-mayor" "gt may at" "%7" tt);
    [reflexivity | reflexivity | | reflexivity | reflexivity | reflexivity].
  split; [reflexivity|]. split; [vm_compute; discriminate|].
  exists "gt-rigA-crew-joe", "mayor", [].
  split_and!; try reflexivity. vm_compute; discriminate.
Defined.

(** ** [convoy queue]: the filter loop *)

Lemma tally_countSkip (c : dispatchClass) (r : skipReason) (sc : queueScan) :
  tally c (countSkip r sc) = countSkip r (tally c sc).
Proof. by destruct c as [[]| |], r. Qed.

Section FilterFacts.
Context {Store : Type} `{BeadsAPI Store}.
Context (s : Store) (townRoot : string) (force : bool).

(** One turn of the loop classifies the issue, tallies it, prints its
    notice, and leaves the store alone. *)
Lemma scanIssue_run (sc : queueScan) (t : trackedIssueInfo) :
  scanIssue townRoot force sc t s =
    (Ok (tally (classOf s townRoot force t) sc), s, notices t (classOf s townRoot force t)).
Proof.
  unfold scanIssue, classOf, isClosed, isAssigned, hasNoRig, readBeadInfo.
  run_monad. repeat case_match; simplify_eq; reflexivity.
Qed.

Lemma forEach_scanIssue (tracked : list trackedIssueInfo) (sc : queueScan) :
  forEach tracked (scanIssue townRoot force) sc s =
    (Ok (tallyAll s townRoot force tracked sc), s, noticesAll s townRoot force tracked).
Proof.
  revert sc. induction tracked as [|t tracked IH]; intros sc; [reflexivity|].
  cbn [forEach]. unfold bind. rewrite scanIssue_run, IH. reflexivity.
Qed.

(** The filter loop always runs to its end. *)
Lemma filterTracked_run (tracked : list trackedIssueInfo) :
  filterTracked townRoot force tracked s =
    (Ok (tallyAll s townRoot force tracked scanStart), s,
     noticesAll s townRoot force tracked).
Proof. apply forEach_scanIssue. Qed.

Lemma tallyAll_app (l1 l2 : list trackedIssueInfo) (sc : queueScan) :
  tallyAll s townRoot force (l1 ++ l2) sc
  = tallyAll s townRoot force l2 (tallyAll s townRoot force l1 sc).
Proof. apply fold_left_app. Qed.

Lemma tallyAll_countSkip (l : list trackedIssueInfo) (r : skipReason) (sc : queueScan) :
  tallyAll s townRoot force l (countSkip r sc)
  = countSkip r (tallyAll s townRoot force l sc).
Proof.
  revert sc. induction l as [|t l IH]; intros sc; [reflexivity|].
  cbn. rewrite tally_countSkip. apply IH.
Qed.

Lemma countClass_cons (p : dispatchClass -> bool) t l :
  countClass s townRoot force p (t :: l)
  = (if p (classOf s townRoot force t) then 1 else 0)
    + countClass s townRoot force p l.
Proof. unfold countClass. cbn. by destruct (p (classOf s townRoot force t)). Qed.

(** The scan variables are the class counts and the candidates in
    order. *)
Lemma tallyAll_fields (l : list trackedIssueInfo) (sc : queueScan) :
  skippedClosed (tallyAll s townRoot force l sc)
    = skippedClosed sc + countClass s townRoot force (isSkipped SkipClosed) l /\
  skippedAssigned (tallyAll s townRoot force l sc)
    = skippedAssigned sc + countClass s townRoot force (isSkipped SkipAssigned) l /\
  skippedQueued (tallyAll s townRoot force l sc)
    = skippedQueued sc + countClass s townRoot force (isSkipped SkipQueued) l /\
  skippedNoRig (tallyAll s townRoot force l sc)
    = skippedNoRig sc + countClass s townRoot force (isSkipped SkipNoRig) l /\
  candidates (tallyAll s townRoot force l sc)
    = candidates sc ++ omap (fun t => candidateOf (classOf s townRoot force t)) l.
Proof.
  revert sc. induction l as [|t l IH]; intros sc.
  { cbn. rewrite app_nil_r. unfold countClass. cbn. split_and!; try lia; done. }
  change (tallyAll s townRoot force (t :: l) sc)
    with (tallyAll s townRoot force l (tally (classOf s townRoot force t) sc)).
  destruct (IH (tally (classOf s townRoot force t) sc)) as (-> & -> & -> & -> & ->).
  rewrite !countClass_cons. cbn [omap list_omap].
  destruct (classOf s townRoot force t) as [[]|c|e]; cbn; rewrite <- ?app_assoc;
    split_and!; try lia; done.
Qed.

Lemma classes_cover (l : list trackedIssueInfo) :
  countClass s townRoot force (isSkipped SkipClosed) l
  + countClass s townRoot force (isSkipped SkipAssigned) l
  + countClass s townRoot force (isSkipped SkipQueued) l
  + countClass s townRoot force (isSkipped SkipNoRig) l
  + List.length (omap (fun t => candidateOf (classOf s townRoot force t)) l)
  + countClass s townRoot force isDropped l = List.length l.
Proof.
  induction l as [|t l IH]; [reflexivity|].
  rewrite !countClass_cons. cbn [omap list_omap List.length].
  destruct (classOf s townRoot force t) as [[]|c|e]; cbn; lia.
Qed.

(** An issue satisfying two or more skip conditions is in the class of the
    first of them. *)
Lemma classOf_first_reason (t : trackedIssueInfo) (r r' : skipReason)
    (more : list skipReason) :
  skipReasons s townRoot force t = r :: r' :: more ->
  classOf s townRoot force t = Skipped r.
Proof.
  unfold skipReasons, classOf, isQueued.
  destruct (isClosed t), (isAssigned force t), (getBeadInfo s (ID t)) as [info|e];
    try destruct (hasQueuedLabel (Labels info));
    destruct (hasNoRig townRoot t); cbn; intros; simplify_eq; reflexivity.
Qed.


(** C2, amended.  The filter loop always finishes, leaves the store as it
    was, and sorts every tracked issue into exactly one of six classes:
    the four skip counters hold the numbers of issues of the four skip
    classes, the candidate list holds the issues of the candidate class in
    order, and the issues whose label lookup failed are in none of the
    five; the five buckets and the dropped issues together are the whole
    tracked list. *)
Theorem tracked_issues_partition_with_dropped (tracked : list trackedIssueInfo) :
  exists sc,
    filterTracked townRoot force tracked s
      = (Ok sc, s, noticesAll s townRoot force tracked) /\
    skippedClosed sc = countClass s townRoot force (isSkipped SkipClosed) tracked /\
    skippedAssigned sc = countClass s townRoot force (isSkipped SkipAssigned) tracked /\
    skippedQueued sc = countClass s townRoot force (isSkipped SkipQueued) tracked /\
    skippedNoRig sc = countClass s townRoot force (isSkipped SkipNoRig) tracked /\
    candidates sc = omap (fun t => candidateOf (classOf s townRoot force t)) tracked /\
    fiveBuckets sc + countClass s townRoot force isDropped tracked = List.length tracked.
Proof.
  exists (tallyAll s townRoot force tracked scanStart). split; [apply filterTracked_run|].
  unfold fiveBuckets.
  destruct (tallyAll_fields tracked scanStart) as (-> & -> & -> & -> & ->).
  cbn [scanStart skippedClosed skippedAssigned skippedQueued skippedNoRig
       candidates app Nat.add].
  split_and!; try reflexivity. apply classes_cover.
Qed.

(** When no label lookup fails, the five buckets are the whole list. *)
Lemma tracked_issues_partition_when_lookups_succeed
    (tracked : list trackedIssueInfo) :
  Forall (fun t => exists info, getBeadInfo s (ID t) = Ok info) tracked ->
  fiveBuckets (tallyAll s townRoot force tracked scanStart) = List.length tracked.
Proof.
  intros Hok.
  pose proof (classes_cover tracked) as Hsum.
  unfold fiveBuckets.
  destruct (tallyAll_fields tracked scanStart) as (-> & -> & -> & -> & ->).
  cbn [scanStart skippedClosed skippedAssigned skippedQueued skippedNoRig
       candidates app Nat.add].
  assert (Hnone : countClass s townRoot force isDropped tracked = 0).
  { clear Hsum. induction Hok as [|t l [info Hinfo] _ IH]; [reflexivity|].
    rewrite countClass_cons, IH. unfold classOf. rewrite Hinfo.
    by repeat case_match. }
  lia.
Qed.

(** C3. Precedence closed > assigned > already-queued > no-rig: an issue
    that satisfies two or more skip conditions adds one to the counter of
    the first of them in that order, and changes nothing else of the
    scan. *)
Theorem skip_precedence (pre post : list trackedIssueInfo)
    (t : trackedIssueInfo) (r r' : skipReason) (more : list skipReason) :
  skipReasons s townRoot force t = r :: r' :: more ->
  exists sc,
    result (filterTracked townRoot force (pre ++ post) s) = Ok sc /\
    result (filterTracked townRoot force (pre ++ t :: post) s)
      = Ok (countSkip r sc).
Proof.
  intros Hreasons. exists (tallyAll s townRoot force (pre ++ post) scanStart).
  rewrite !filterTracked_run. split; [reflexivity|].
  cbn [result fst]. f_equal.
  rewrite !tallyAll_app.
  change (tallyAll s townRoot force (t :: post) ?x)
    with (tallyAll s townRoot force post (tally (classOf s townRoot force t) x)).
  rewrite (classOf_first_reason t r r' more Hreasons).
  apply tallyAll_countSkip.
Qed.

(** C9. An issue that is neither closed nor skipped as assigned and whose
    label lookup fails is dropped: the loop prints the warning in its
    place and goes on, and the scan is the one of the list without the
    issue. *)
Theorem failed_label_lookup_drops_issue (pre post : list trackedIssueInfo)
    (t : trackedIssueInfo) (e : string) :
  isClosed t = false ->
  isAssigned force t = false ->
  getBeadInfo s (ID t) = Err e ->
  exists sc,
    filterTracked townRoot force (pre ++ post) s =
      (Ok sc, s,
       trace (filterTracked townRoot force pre s)
       ++ trace (filterTracked townRoot force post s)) /\
    filterTracked townRoot force (pre ++ t :: post) s =
      (Ok sc, s,
       trace (filterTracked townRoot force pre s)
       ++ Printed (MsgCouldNotCheck (ID t) e)
       :: trace (filterTracked townRoot force post s)).
Proof.
  intros Hopen Hfree Hlookup. exists (tallyAll s townRoot force (pre ++ post) scanStart).
  assert (Hclass : classOf s townRoot force t = Dropped e).
  { unfold classOf. by rewrite Hopen, Hfree, Hlookup. }
  rewrite !filterTracked_run. cbn [trace snd].
  unfold noticesAll. rewrite !flat_map_app, !tallyAll_app. cbn [flat_map].
  change (tallyAll s townRoot force (t :: post) ?x)
    with (tallyAll s townRoot force post (tally (classOf s townRoot force t) x)).
  rewrite Hclass. split; reflexivity.
Qed.

End FilterFacts.

(** C2, as stated, fails: the convoy tracks one open, unassigned issue whose
    labels cannot be read.  The issue is in none of the five buckets. *)
Lemma lost_bead_is_in_no_bucket :
  ~ (forall sc,
       result (filterTracked "/town" false
                 [mkTracked "gt-lost" "Lost bead" "open" ""] ([] : Town.Store))
         = Ok sc ->
       fiveBuckets sc = List.length [mkTracked "gt-lost" "Lost bead" "open" ""]).
Proof.
  intros Hclaim. specialize (Hclaim scanStart eq_refl). discriminate Hclaim.
Qed.

(** C3, on a run: [gt-c] is assigned and already in a backlog; it is counted
    as assigned. *)
Lemma skip_precedence_witness :
  exists sc,
    result (filterTracked "/town" false
              ([mkTracked "gt-a" "Fix parser" "closed" ""]
               ++ [mkTracked "bd-b" "Add index" "open" ""])
              (["gt-c"] : Town.Store)) = Ok sc /\
    result (filterTracked "/town" false
              ([mkTracked "gt-a" "Fix parser" "closed" ""]
               ++ mkTracked "gt-c" "Tune cache" "in_progress" "gastown/polecats/nux"
               :: [mkTracked "bd-b" "Add index" "open" ""])
              (["gt-c"] : Town.Store)) = Ok (countSkip SkipAssigned sc).
Proof.
  apply (skip_precedence (["gt-c"] : Town.Store) "/town" false
           [mkTracked "gt-a" "Fix parser" "closed" ""]
           [mkTracked "bd-b" "Add index" "open" ""]
           (mkTracked "gt-c" "Tune cache" "in_progress" "gastown/polecats/nux")
           SkipAssigned SkipQueued []).
  reflexivity.
Defined.

(** C9, on a run: the labels of [gt-lost] cannot be read. *)
Lemma failed_label_lookup_drops_issue_witness :
  exists sc,
    filterTracked "/town" false
      ([mkTracked "bd-b" "Add index" "open" ""]
       ++ [mkTracked "gt-d" "Write docs" "open" ""]) ([] : Town.Store) =
      (Ok sc, [],
       trace (filterTracked "/town" false
                [mkTracked "bd-b" "Add index" "open" ""] ([] : Town.Store))
       ++ trace (filterTracked "/town" false
                   [mkTracked "gt-d" "Write docs" "open" ""] ([] : Town.Store))) /\
    filterTracked "/town" false
      ([mkTracked "bd-b" "Add index" "open" ""]
       ++ mkTracked "gt-lost" "Lost bead" "open" ""
       :: [mkTracked "gt-d" "Write docs" "open" ""]) ([] : Town.Store) =
      (Ok sc, [],
       trace (filterTracked "/town" false
                [mkTracked "bd-b" "Add index" "open" ""] ([] : Town.Store))
       ++ Printed (MsgCouldNotCheck
                     (ID (mkTracked "gt-lost" "Lost bead" "open" ""))
                     "signal SIGSEGV: segmentation violation")
       :: trace (filterTracked "/town" false
                   [mkTracked "gt-d" "Write docs" "open" ""] ([] : Town.Store))).
Proof.
  apply (failed_label_lookup_drops_issue ([] : Town.Store) "/town" false
           [mkTracked "bd-b" "Add index" "open" ""]
           [mkTracked "gt-d" "Write docs" "open" ""]
           (mkTracked "gt-lost" "Lost bead" "open" "")
           "signal SIGSEGV: segmentation violation");
    reflexivity.
Defined.

(** ** [convoy queue]: the placement loop and the whole command *)

Section PlacementFacts.
Context {Store : Type} `{BeadsAPI Store}.

Lemma placeCandidate_run (force : bool) (n : nat) (c : queueCandidate) (s : Store) :
  placeCandidate force n c s =
    (Ok (n + placed (placementOutcomes force s [c])),
     storeAfterPlacements force s [c],
     flat_map (placementEvents force) (placementOutcomes force s [c])).
Proof.
  unfold placeCandidate, placeBead, placed, placementEvents. run_monad.
  cbn [placementOutcomes storeAfterPlacements flat_map].
  change (mkEnqueueOptions "mol-polecat-work" true force)
    with (placementOptions force).
  destruct (enqueueBead s (c_ID c) (c_RigName c) (placementOptions force))
    as [[e|] s'];
    cbn; rewrite ?Nat.add_0_r, ?Nat.add_1_r; reflexivity.
Qed.

(** The placement loop never stops early: it calls the store for every
    candidate and counts the calls that succeeded. *)
Lemma forEach_placeCandidate (force : bool) (cands : list queueCandidate)
    (n : nat) (s : Store) :
  forEach cands (placeCandidate force) n s =
    (Ok (n + placed (placementOutcomes force s cands)),
     storeAfterPlacements force s cands,
     flat_map (placementEvents force) (placementOutcomes force s cands)).
Proof.
  revert n s. induction cands as [|c cands IH]; intros n s.
  { cbn. by rewrite Nat.add_0_r. }
  cbn [forEach]. unfold bind. rewrite placeCandidate_run, IH.
  cbn [placementOutcomes storeAfterPlacements flat_map app fst snd].
  unfold placed. cbn [List.filter fst snd].
  rewrite app_nil_r.
  destruct (enqueueBead s (c_ID c) (c_RigName c) (placementOptions force)).1;
    cbn [List.filter List.length];
    rewrite ?Nat.add_0_r, <- ?Nat.add_assoc; reflexivity.
Qed.

Lemma placementOutcomes_candidates (force : bool) (cands : list queueCandidate)
    (s : Store) :
  map fst (placementOutcomes force s cands) = cands.
Proof.
  revert s. induction cands as [|c cands IH]; intros s; [reflexivity|].
  cbn. by rewrite IH.
Qed.

Lemma placementOutcomes_keys (force : bool) (cands : list queueCandidate)
    (s : Store) :
  map (fun o : queueCandidate * option string => candidateKey o.1)
      (placementOutcomes force s cands)
  = map candidateKey cands.
Proof.
  revert s. induction cands as [|c cands IH]; intros s; [reflexivity|].
  cbn. by rewrite IH.
Qed.

Lemma placed_plus_failed (outs : list (queueCandidate * option string)) :
  placed outs + List.length (omap placementFailure outs) = List.length outs.
Proof.
  unfold placed. induction outs as [|[c [e|]] outs IH]; cbn in *; lia.
Qed.

Lemma attempted_placements (force : bool)
    (outs : list (queueCandidate * option string)) :
  attempted (flat_map (placementEvents force) outs)
    = map (fun o => candidateKey o.1) outs.
Proof.
  induction outs as [|[c [e|]] outs IH]; [reflexivity| |]; cbn; by f_equal.
Qed.

Lemma reported_placements (force : bool)
    (outs : list (queueCandidate * option string)) :
  reportedFailures (flat_map (placementEvents force) outs)
    = omap placementFailure outs.
Proof.
  induction outs as [|[c [e|]] outs IH]; [reflexivity| |]; cbn; by f_equal.
Qed.

Lemma placements_say_nothing_else (force : bool)
    (outs : list (queueCandidate * option string)) :
  previewed (flat_map (placementEvents force) outs) = [] /\
  skipReports (flat_map (placementEvents force) outs) = [].
Proof.
  induction outs as [|[c [e|]] outs [IH1 IH2]]; [done| |]; cbn; by split.
Qed.

Lemma forEach_wouldQueue (cands : list queueCandidate) (s : Store) :
  forEach cands
    (fun _ c => say (MsgWouldQueue (c_ID c) (c_RigName c) (c_Title c))) tt s
  = (Ok tt, s, map wouldQueueNotice cands).
Proof.
  induction cands as [|c cands IH]; [reflexivity|].
  cbn [forEach]. run_monad. by rewrite IH.
Qed.

Lemma previewed_wouldQueue (cands : list queueCandidate) :
  previewed (map wouldQueueNotice cands) = map candidateKey cands /\
  attempted (map wouldQueueNotice cands) = [] /\
  skipReports (map wouldQueueNotice cands) = [] /\
  reportedFailures (map wouldQueueNotice cands) = [].
Proof.
  induction cands as [|c cands (IH1 & IH2 & IH3 & IH4)]; [done|].
  cbn. split_and!; try done. by f_equal.
Qed.

Lemma notices_are_no_reports (s : Store) (townRoot : string) (force : bool)
    (tracked : list trackedIssueInfo) :
  previewed (noticesAll s townRoot force tracked) = [] /\
  attempted (noticesAll s townRoot force tracked) = [] /\
  skipReports (noticesAll s townRoot force tracked) = [] /\
  reportedFailures (noticesAll s townRoot force tracked) = [].
Proof.
  unfold noticesAll.
  induction tracked as [|t tracked (IH1 & IH2 & IH3 & IH4)]; [done|].
  cbn [flat_map]. unfold previewed, attempted, skipReports, reportedFailures in *.
  rewrite !omap_app, IH1, IH2, IH3, IH4.
  by destruct (classOf s townRoot force t) as [[]| |].
Qed.

Lemma skipNotice_reports (sc : queueScan) :
  previewed (skipNotice sc) = [] /\
  attempted (skipNotice sc) = [] /\
  reportedFailures (skipNotice sc) = [].
Proof. unfold skipNotice. by destruct (anySkipped sc). Qed.

Lemma saySkipped_run (sc : queueScan) (s : Store) :
  saySkipped sc s = (Ok tt, s, skipNotice sc).
Proof. unfold saySkipped, skipNotice. run_monad. by destruct (anySkipped sc). Qed.

Context (h : Host).

(** The whole command, run symbolically. *)
Lemma runConvoyQueue_run (f : QueueFlags) (convoyID : string) (s : Store) :
  runConvoyQueue h f convoyID s =
    match FindFromCwdOrError h with
    | Err e => (Err e, s, [])
    | Ok townRoot =>
        match bdShow h convoyID with
        | Some _ => (Err ("convoy '" +:+ convoyID +:+ "' not found"), s, [])
        | None =>
            match getTrackedIssues s (townBeadsDir townRoot) convoyID with
            | Err e => (Err ("getting tracked issues: " +:+ e), s, [])
            | Ok tracked =>
                if (List.length tracked =? 0)%nat
                then (Ok tt, s, [Printed (MsgNoTracked convoyID)])
                else
                  let sc := tallyAll s townRoot (convoyQueueForce f) tracked scanStart in
                  let seen := noticesAll s townRoot (convoyQueueForce f) tracked in
                  if (List.length (candidates sc) =? 0)%nat
                  then (Ok tt, s,
                        seen ++ Printed (MsgNoIssues convoyID) :: skipNotice sc)
                  else if convoyQueueDryRun f
                  then (Ok tt, s,
                        seen
                        ++ Printed (MsgWouldQueueHeader (List.length (candidates sc)) convoyID)
                        :: map wouldQueueNotice (candidates sc) ++ skipNotice sc)
                  else
                    let outs := placementOutcomes (convoyQueueForce f) s (candidates sc) in
                    (Ok tt,
                     storeAfterPlacements (convoyQueueForce f) s (candidates sc),
                     seen
                     ++ Printed (MsgQueuing (List.length (candidates sc)) convoyID)
                     :: flat_map (placementEvents (convoyQueueForce f)) outs
                     ++ Printed (MsgQueued (placed outs) (List.length (candidates sc)) convoyID)
                     :: skipNotice sc)
            end
        end
    end.
Proof.
  unfold runConvoyQueue, orFail, wrap, placeCandidates. unfold bind at 1.
  destruct (FindFromCwdOrError h) as [townRoot|e]; [|reflexivity].
  cbn [liftRes ret]. unfold bind at 1. rewrite verifyBeadExists_run.
  destruct (bdShow h convoyID); [reflexivity|].
  unfold bind at 1.
  destruct (getTrackedIssues s (townBeadsDir townRoot) convoyID) as [tracked|e];
    [|reflexivity].
  destruct (List.length tracked =? 0)%nat; [reflexivity|].
  unfold bind at 1. rewrite filterTracked_run. cbv zeta.
  destruct (List.length (candidates _) =? 0)%nat.
  { unfold bind, say, emit. rewrite saySkipped_run. by rewrite app_nil_l. }
  destruct (convoyQueueDryRun f).
  - unfold bind, say, emit. rewrite forEach_wouldQueue, saySkipped_run.
    by rewrite app_nil_l.
  - unfold bind, say, emit. rewrite forEach_placeCandidate, saySkipped_run.
    cbn [app Nat.add]. reflexivity.
Qed.

(** C4. A dry run and a live run from the same store end alike, the dry
    run lists exactly the candidates (issue and rig, in order) that the
    live run places, both report the same skip counters, and the dry run
    places nothing and leaves the store as it was. *)
Theorem dry_run_equivalence (force : bool) (convoyID : string) (s : Store) :
  let dry := runConvoyQueue h (mkQueueFlags true force) convoyID s in
  let live := runConvoyQueue h (mkQueueFlags false force) convoyID s in
  result dry = result live /\
  previewed (trace dry) = attempted (trace live) /\
  skipReports (trace dry) = skipReports (trace live) /\
  attempted (trace dry) = [] /\
  final dry = s.
Proof.
  cbv zeta. rewrite !runConvoyQueue_run.
  cbn [convoyQueueDryRun convoyQueueForce].
  destruct (FindFromCwdOrError h) as [townRoot|e]; [|done].
  destruct (bdShow h convoyID); [done|].
  destruct (getTrackedIssues s (townBeadsDir townRoot) convoyID) as [tracked|e];
    [|done].
  destruct (List.length tracked =? 0)%nat; [done|]. cbv zeta.
  destruct (notices_are_no_reports s townRoot force tracked) as (Hn1 & Hn2 & Hn3 & _).
  set (sc := tallyAll s townRoot force tracked scanStart).
  destruct (skipNotice_reports sc) as (Hs1 & Hs2 & _).
  destruct (List.length (candidates sc) =? 0)%nat.
  { cbn [result final trace fst snd]. unfold previewed, attempted in *.
    rewrite !omap_app. cbn [omap list_omap]. by rewrite Hn1, Hn2, Hs1, Hs2. }
  set (outs := placementOutcomes force s (candidates sc)).
  destruct (previewed_wouldQueue (candidates sc)) as (Hw1 & Hw2 & Hw3 & _).
  destruct (placements_say_nothing_else force outs) as (_ & Hp2).
  pose proof (attempted_placements force outs) as Hp1.
  assert (Hkeys : map (fun o : queueCandidate * option string => candidateKey o.1) outs
                  = map candidateKey (candidates sc)).
  { apply placementOutcomes_keys. }
  cbn [result final trace fst snd].
  unfold previewed, attempted, skipReports in *.
  rewrite !omap_app. cbn [omap list_omap]. rewrite !omap_app. cbn [omap list_omap].
  rewrite Hn1, Hn2, Hn3, Hs1, Hs2, Hw1, Hw2, Hw3, Hp1, Hp2, Hkeys.
  by rewrite !app_nil_r.
Qed.

(** C7. A live run with candidates does not stop at a failed placement:
    it ends without an error, has called the store for every candidate in
    order, has reported each failed placement under its issue id, and
    closes with the number placed out of the number of candidates. *)
Theorem placement_failures_do_not_abort (force : bool) (convoyID : string)
    (s : Store) (townRoot : string) (tracked : list trackedIssueInfo)
    (sc : queueScan) :
  FindFromCwdOrError h = Ok townRoot ->
  bdShow h convoyID = None ->
  getTrackedIssues s (townBeadsDir townRoot) convoyID = Ok tracked ->
  result (filterTracked townRoot force tracked s) = Ok sc ->
  candidates sc <> [] ->
  let run := runConvoyQueue h (mkQueueFlags false force) convoyID s in
  let outs := placementOutcomes force s (candidates sc) in
  result run = Ok tt /\
  attempted (trace run) = map candidateKey (candidates sc) /\
  reportedFailures (trace run) = omap placementFailure outs /\
  Printed (MsgQueued (placed outs) (List.length (candidates sc)) convoyID)
    ∈ trace run /\
  placed outs + List.length (reportedFailures (trace run))
    = List.length (candidates sc).
Proof.
  intros Hroot Hshow Htracked Hscan Hsome. cbv zeta.
  rewrite filterTracked_run in Hscan. injection Hscan as Hsc.
  rewrite runConvoyQueue_run, Hroot, Hshow, Htracked.
  cbn [convoyQueueDryRun convoyQueueForce]. cbv zeta. rewrite Hsc.
  assert (Htl : (List.length tracked =? 0)%nat = false).
  { destruct tracked; [by subst sc|reflexivity]. }
  assert (Hcl : (List.length (candidates sc) =? 0)%nat = false).
  { by destruct (candidates sc). }
  rewrite Htl, Hcl. clear Htl Hcl Hsome.
  set (outs := placementOutcomes force s (candidates sc)).
  destruct (notices_are_no_reports s townRoot force tracked)
    as (_ & Hn2 & _ & Hn4).
  destruct (skipNotice_reports sc) as (_ & Hs2 & Hs3).
  pose proof (attempted_placements force outs) as Hp1.
  pose proof (reported_placements force outs) as Hp2.
  pose proof (placementOutcomes_keys force (candidates sc) s) as Hkeys.
  fold outs in Hkeys.
  assert (Hfailed :
    reportedFailures
      (noticesAll s townRoot force tracked
       ++ Printed (MsgQueuing (List.length (candidates sc)) convoyID)
       :: flat_map (placementEvents force) outs
       ++ Printed (MsgQueued (placed outs) (List.length (candidates sc)) convoyID)
       :: skipNotice sc)
    = omap placementFailure outs).
  { unfold reportedFailures in *.
    rewrite !omap_app. cbn [omap list_omap]. rewrite !omap_app. cbn [omap list_omap].
    by rewrite Hn4, Hs3, Hp2, app_nil_r. }
  cbn [result final trace fst snd].
  split_and!.
  - reflexivity.
  - unfold attempted in *.
    rewrite !omap_app. cbn [omap list_omap]. rewrite !omap_app. cbn [omap list_omap].
    by rewrite Hn2, Hs2, Hp1, Hkeys, app_nil_r.
  - exact Hfailed.
  - set_solver.
  - rewrite Hfailed, placed_plus_failed. unfold outs.
    rewrite <- (placementOutcomes_candidates force (candidates sc) s) at 2.
    by rewrite length_map.
Qed.

End PlacementFacts.

(** C7, on a run: of the three candidates of convoy [hq-cv-1], the placement
    of [bd-full] fails; the other two are placed. *)
Lemma placement_failures_do_not_abort_witness :
  let sc := mkScan [mkCandidate "bd-b" "Add index" "beads";
                    mkCandidate "bd-full" "Port tests" "beads";
                    mkCandidate "gt-d" "Write docs" "gastown"] 1 1 0 1 in
  let run := runConvoyQueue Town.joe (mkQueueFlags false false) "hq-cv-1"
               (["gt-c"] : Town.Store) in
  let outs := placementOutcomes false (["gt-c"] : Town.Store) (candidates sc) in
  result run = Ok tt /\
  attempted (trace run) = map candidateKey (candidates sc) /\
  reportedFailures (trace run) = omap placementFailure outs /\
  Printed (MsgQueued (placed outs) (List.length (candidates sc)) "hq-cv-1")
    ∈ trace run /\
  placed outs + List.length (reportedFailures (trace run))
    = List.length (candidates sc).
Proof.
  apply (placement_failures_do_not_abort Town.joe false "hq-cv-1"
           (["gt-c"] : Town.Store) "/town" Town.tracked);
    [reflexivity | reflexivity | reflexivity | reflexivity | discriminate].
Defined.

(** C4, on a run: from the store in which only [gt-c] is in a backlog, the
    dry run of convoy [hq-cv-1] lists the three issues the live run places,
    and both report one closed, one assigned and one no-rig issue. *)
Example town_dry_run_lists_what_the_live_run_places :
  let dry := runConvoyQueue Town.joe (mkQueueFlags true false) "hq-cv-1"
               (["gt-c"] : Town.Store) in
  let live := runConvoyQueue Town.joe (mkQueueFlags false false) "hq-cv-1"
                (["gt-c"] : Town.Store) in
  previewed (trace dry) = [("bd-b", "beads"); ("bd-full", "beads"); ("gt-d", "gastown")] /\
  attempted (trace live) = [("bd-b", "beads"); ("bd-full", "beads"); ("gt-d", "gastown")] /\
  skipReports (trace dry) = [(1, 1, 0, 1)] /\
  skipReports (trace live) = [(1, 1, 0, 1)] /\
  final dry = ["gt-c"] /\
  final live = ["gt-d"; "bd-b"; "gt-c"].
Proof. vm_compute. split_and!; reflexivity. Qed.

(** * Further properties of the commands *)

(** ** Go's string functions on concatenations *)

Lemma length_append (a b : string) :
  String.length (a +:+ b) = String.length a + String.length b.
Proof.
  induction a as [|c a IH]; [reflexivity|].
  change (String c a +:+ b) with (String c (a +:+ b)). cbn. by rewrite IH.
Qed.

Lemma prefix_refl (p : string) : String.prefix p p = true.
Proof.
  induction p as [|c p IH]; [reflexivity|]. cbn.
  destruct (ascii_dec c c); [exact IH|done].
Qed.

Lemma prefix_append (p s : string) : String.prefix p (p +:+ s) = true.
Proof.
  induction p as [|c p IH]; [by destruct s|].
  change (String c p +:+ s) with (String c (p +:+ s)). cbn.
  destruct (ascii_dec c c); [exact IH|done].
Qed.

Lemma prefix_append_r (p s t : string) :
  String.prefix p s = true -> String.prefix p (s +:+ t) = true.
Proof.
  revert s. induction p as [|c p IH]; intros s Hp; [by destruct (s +:+ t)|].
  destruct s as [|d s]; [discriminate Hp|].
  change (String d s +:+ t) with (String d (s +:+ t)). cbn in *.
  destruct (ascii_dec c d); [by apply IH|discriminate Hp].
Qed.

Lemma Contains_append_l (s t sub : string) :
  Contains s sub = true -> Contains (s +:+ t) sub = true.
Proof.
  induction s as [|c s IH]; cbn [Contains].
  - rewrite orb_false_r. intros Hp. destruct sub; [|discriminate Hp].
    by destruct t.
  - change (String c s +:+ t) with (String c (s +:+ t)). cbn [Contains].
    intros [Hp|Hs]%orb_true_iff.
    + change (String c (s +:+ t)) with (String c s +:+ t).
      by rewrite (prefix_append_r _ _ t Hp).
    + rewrite (IH Hs). apply orb_true_r.
Qed.

Lemma Contains_middle (a sub b : string) :
  Contains (a +:+ sub +:+ b) sub = true.
Proof.
  apply Contains_app_r.
  destruct (sub +:+ b) eqn:E; cbn [Contains];
    rewrite <- E, prefix_append; reflexivity.
Qed.

Lemma substring_all (s : string) : String.substring 0 (String.length s) s = s.
Proof. induction s as [|c s IH]; [reflexivity|]. cbn. by rewrite IH. Qed.

Lemma substring_append_l (s t : string) :
  String.substring 0 (String.length s) (s +:+ t) = s.
Proof.
  induction s as [|c s IH]; [by destruct t|].
  change (String c s +:+ t) with (String c (s +:+ t)). cbn. by rewrite IH.
Qed.

Lemma substring_append_r (s t : string) :
  String.substring (String.length s) (String.length t) (s +:+ t) = t.
Proof.
  induction s as [|c s IH]; [apply substring_all|].
  change (String c s +:+ t) with (String c (s +:+ t)). cbn. exact IH.
Qed.

Lemma HasSuffix_append (s suf : string) : HasSuffix (s +:+ suf) suf = true.
Proof.
  unfold HasSuffix. rewrite length_append.
  replace (String.length s + String.length suf - String.length suf)
    with (String.length s) by lia.
  rewrite substring_append_r, String.eqb_refl, andb_true_r.
  apply Nat.leb_le. lia.
Qed.

Lemma TrimPrefix_append (p s : string) : TrimPrefix (p +:+ s) p = s.
Proof.
  unfold TrimPrefix, HasPrefix. rewrite prefix_append, length_append.
  replace (String.length p + String.length s - String.length p)
    with (String.length s) by lia.
  apply substring_append_r.
Qed.

Lemma TrimSuffix_append (s suf : string) : TrimSuffix (s +:+ suf) suf = s.
Proof.
  unfold TrimSuffix. rewrite HasSuffix_append, length_append.
  replace (String.length s + String.length suf - String.length suf)
    with (String.length s) by lia.
  apply substring_append_l.
Qed.

Lemma HasSuffix_length (s suf : string) :
  HasSuffix s suf = true -> String.length suf <= String.length s.
Proof. unfold HasSuffix. intros [H _]%andb_true_iff. by apply Nat.leb_le. Qed.

Lemma lowerByte_idempotent (c : ascii) : lowerByte (lowerByte c) = lowerByte c.
Proof. destruct c as [[] [] [] [] [] [] [] []]; reflexivity. Qed.

Lemma ToLower_idempotent (s : string) : ToLower (ToLower s) = ToLower s.
Proof.
  induction s as [|c s IH]; [reflexivity|]. cbn. by rewrite lowerByte_idempotent, IH.
Qed.

Lemma Split_nonempty (s : string) (sep : ascii) : Split s sep <> [].
Proof.
  destruct s as [|c s]; cbn [Split]; [done|].
  destruct (Ascii.eqb c sep); [done|]. by destruct (Split s sep).
Qed.

(** The head of a split is the string itself, or what stands before the
    first separator. *)
Lemma Split_first_line (s : string) (sep : ascii) (line : string)
    (rest : list string) :
  Split s sep = line :: rest ->
  (s = line /\ rest = []) \/ exists tail, s = line +:+ String sep tail.
Proof.
  revert line rest. induction s as [|c s IH]; intros line rest; cbn [Split].
  - intros [= <- <-]. by left.
  - destruct (Ascii.eqb c sep) eqn:Hc.
    + apply Ascii.eqb_eq in Hc as ->. intros [= <- <-]. right. by exists s.
    + destruct (Split s sep) as [|h t] eqn:Hs; [by destruct (Split_nonempty s sep)|].
      intros [= <- <-].
      destruct (IH h t eq_refl) as [[-> ->]|[tail ->]]; [by left|].
      right. by exists tail.
Qed.

Lemma Split_head_no_separator (s : string) (sep : ascii) (line : string)
    (rest : list string) :
  Split s sep = line :: rest -> Contains line (String sep "") = false.
Proof.
  revert line rest. induction s as [|c s IH]; intros line rest; cbn [Split].
  - by intros [= <- <-].
  - destruct (Ascii.eqb c sep) eqn:Hc; [by intros [= <- <-]|].
    destruct (Split s sep) as [|h t] eqn:Hs.
    + intros [= <- <-]. cbn. destruct (ascii_dec sep c) as [->|]; [|done].
      by rewrite Ascii.eqb_refl in Hc.
    + intros [= <- <-]. cbn [Contains]. rewrite (IH h t eq_refl), orb_false_r.
      cbn. destruct (ascii_dec sep c) as [->|]; [|done].
      by rewrite Ascii.eqb_refl in Hc.
Qed.

Lemma append_assoc (a b c : string) : (a +:+ b) +:+ c = a +:+ (b +:+ c).
Proof.
  induction a as [|x a IH]; [reflexivity|].
  change (String x a +:+ b) with (String x (a +:+ b)).
  change (String x (a +:+ b) +:+ c) with (String x ((a +:+ b) +:+ c)).
  by rewrite IH.
Qed.

(** ** [recycle]: role tokens and restart commands *)

Section RoleFacts.
Context (h : Host).

(** A token whose lower-case form is no keyword is a session name, taken as
    it is typed. *)
Lemma resolveRoleToSession_literal (role : string) :
  isRoleKeyword (ToLower role) = false ->
  resolveRoleToSession h role = Ok role.
Proof.
  unfold isRoleKeyword, roleKeywords, resolveRoleToSession. cbn [existsb].
  intros Hkey. repeat (apply orb_false_elim in Hkey as [-> Hkey]). reflexivity.
Qed.

(** X1. Role keywords are matched without regard to case: two tokens with
    the same lower-case form, a keyword, resolve to the same session or fail
    with the same error. *)
Theorem resolveRoleToSession_ignores_case (r1 r2 : string) :
  ToLower r1 = ToLower r2 ->
  isRoleKeyword (ToLower r1) = true ->
  resolveRoleToSession h r1 = resolveRoleToSession h r2.
Proof.
  unfold isRoleKeyword, roleKeywords, resolveRoleToSession. cbn [existsb].
  intros <-. generalize (ToLower r1). intros r Hkey.
  repeat match goal with
  | |- context [String.eqb r ?k] => destruct (String.eqb r k); cbn [orb] in *
  end; try reflexivity; discriminate Hkey.
Qed.

(** X2. Every session a role keyword resolves to has a restart command:
    [recycle] of a keyword never stops at an unknown session type. *)
Theorem keyword_session_has_restart_command (role sess : string) :
  isRoleKeyword (ToLower role) = true ->
  resolveRoleToSession h role = Ok sess ->
  exists cmd, buildRestartCommand sess = Ok cmd.
Proof.
  intros Hkey Hres.
  assert (Hpat : String.eqb sess "gt-mayor" = true \/
                 String.eqb sess "gt-deacon" = true \/
                 Contains sess "-crew-" = true \/
                 HasSuffix sess "-witness" = true \/
                 HasSuffix sess "-refinery" = true).
  { revert Hkey Hres.
    unfold isRoleKeyword, roleKeywords, resolveRoleToSession. cbn [existsb].
    generalize (ToLower role). intros r Hkey.
    repeat match goal with
    | |- context [String.eqb r ?k] => destruct (String.eqb r k); cbn [orb] in *
    end; try discriminate Hkey; clear Hkey.
    all: repeat case_match; intros [= <-]; auto.
    all: try (right; right; left;
              apply (Contains_app_r "gt-"), Contains_middle).
    all: try (right; right; right; left;
              rewrite <- append_assoc; apply HasSuffix_append).
    all: right; right; right; right;
         rewrite <- append_assoc; apply HasSuffix_append. }
  unfold buildRestartCommand.
  destruct Hpat as [-> | [H1 | [H1 | [H1 | H1]]]]; [eauto|..];
    rewrite ?H1; repeat case_match; eauto.
Qed.

(** X3. The crew pattern comes first: when the rig's name contains
    [-crew-], the witness and the refinery of that rig are restarted with
    the crew command. *)
Theorem crew_pattern_shadows_rig_roles (role : string) :
  Contains (Getenv h "GT_RIG") "-crew-" = true ->
  (ToLower role = "witness" \/ ToLower role = "wit" \/
   ToLower role = "refinery" \/ ToLower role = "ref") ->
  exists sess,
    resolveRoleToSession h role = Ok sess /\
    buildRestartCommand sess = Ok "gt crew at".
Proof.
  intros Hrig Hrole.
  assert (Hne : String.eqb (Getenv h "GT_RIG") "" = false).
  { destruct (Getenv h "GT_RIG"); [discriminate Hrig|reflexivity]. }
  assert (Hbuild : forall suffix,
    buildRestartCommand ("gt-" +:+ Getenv h "GT_RIG" +:+ suffix) = Ok "gt crew at").
  { intros suffix.
    assert (Hc : Contains ("gt-" +:+ Getenv h "GT_RIG" +:+ suffix) "-crew-" = true).
    { by apply (Contains_app_r "gt-"), Contains_append_l. }
    unfold buildRestartCommand. rewrite Hc.
    destruct (String.eqb _ "gt-mayor") eqn:E1.
    { apply String.eqb_eq in E1. rewrite E1 in Hc. discriminate Hc. }
    destruct (String.eqb _ "gt-deacon") eqn:E2.
    { apply String.eqb_eq in E2. rewrite E2 in Hc. discriminate Hc. }
    reflexivity. }
  unfold resolveRoleToSession.
  destruct Hrole as [-> | [-> | [-> | ->]]]; cbn [String.eqb Ascii.eqb Bool.eqb orb];
    rewrite Hne; eauto.
Qed.

(** X4. The pane [getSessionPane] returns is the first line of what tmux
    lists, once white space is trimmed off both ends of the listing: the
    listing is the pane alone or the pane followed by a newline and the
    rest, and the pane is not empty and holds no newline. *)
Theorem getSessionPane_is_first_line (session pane : string) :
  getSessionPane h session = Ok pane ->
  exists out,
    tmuxListPanes h session = Ok out /\
    (TrimSpace out = pane \/
     exists rest, TrimSpace out = pane +:+ String newline rest) /\
    pane <> "" /\
    Contains pane (String newline "") = false.
Proof.
  unfold getSessionPane. destruct (tmuxListPanes h session) as [out|]; [|done].
  destruct (Split (TrimSpace out) newline) as [|line0 rest] eqn:Hsplit; [done|].
  destruct (String.eqb line0 "") eqn:Hempty; [done|].
  intros [= <-]. exists out. split_and!.
  - reflexivity.
  - destruct (Split_first_line _ _ _ _ Hsplit) as [[-> _]|[tail ->]]; eauto.
  - by apply String.eqb_neq.
  - by apply (Split_head_no_separator _ _ _ _ Hsplit).
Qed.

End RoleFacts.

(** X1, on a run: [MAYOR] and [Mayor]. *)
Lemma resolveRoleToSession_ignores_case_witness :
  resolveRoleToSession Town.joe "MAYOR" = resolveRoleToSession Town.joe "Mayor".
Proof.
  apply (resolveRoleToSession_ignores_case Town.joe "MAYOR" "Mayor");
    reflexivity.
Defined.

(** X2, on a run: joe asks for [Crew]. *)
Lemma keyword_session_has_restart_command_witness :
  exists cmd, buildRestartCommand "gt-rigA-crew-joe" = Ok cmd.
Proof.
  apply (keyword_session_has_restart_command Town.joe "Crew" "gt-rigA-crew-joe");
    reflexivity.
Defined.

(** X4, on a run: the mayor's session has two panes. *)
Lemma getSessionPane_is_first_line_witness :
  exists out,
    tmuxListPanes Town.joe "gt-mayor" = Ok out /\
    (TrimSpace out = "%7" \/
     exists rest, TrimSpace out = "%7" +:+ String newline rest) /\
    "%7" <> "" /\
    Contains "%7" (String newline "") = false.
Proof.
  apply (getSessionPane_is_first_line Town.joe "gt-mayor" "%7"). reflexivity.
Defined.

(** X3, on a run: the witness of rig [east-crew-yard]. *)
Lemma crew_pattern_shadows_rig_roles_witness :
  exists sess,
    resolveRoleToSession yardWitness "witness" = Ok sess /\
    buildRestartCommand sess = Ok "gt crew at".
Proof.
  apply (crew_pattern_shadows_rig_roles yardWitness "witness");
    [reflexivity | left; reflexivity].
Defined.

(** ** [recycle]: what a run does and does not do *)

Section RecycleRunFacts.
Context (h : Host).

(** [recycleRemoteSession], run symbolically. *)
Lemma recycleRemoteSession_run {S} (f : RecycleFlags)
    (target cmd : string) (s : S) :
  recycleRemoteSession h f target cmd s =
    match HasSession h target with
    | Err e => (Err ("checking session: " +:+ e), s, [])
    | Ok false =>
        (Err ("session '" +:+ target +:+ "' not found - is the agent running?"),
         s, [])
    | Ok true =>
        match getSessionPane h target with
        | Err e => (Err ("getting target pane: " +:+ e), s, [])
        | Ok pane =>
            if recycleDryRun f then
              (Ok tt, s,
               Printed (MsgRecycling target) :: Printed (MsgWouldRespawn pane cmd)
               :: (if recycleWatch f then [Printed (MsgWouldSwitch target)] else []))
            else
              match respawnError h pane cmd with
              | Some e =>
                  (Err ("respawning pane: " +:+ e), s,
                   [Printed (MsgRecycling target); EvRespawnPane pane cmd])
              | None =>
                  (Ok tt, s,
                   Printed (MsgRecycling target) :: EvRespawnPane pane cmd
                   :: (if recycleWatch f then
                         Printed (MsgSwitching target) :: EvSwitchClient target
                         :: match switchClientError h target with
                            | Some _ => [Printed (MsgCouldNotSwitch target)]
                            | None => []
                            end
                       else []))
              end
        end
    end.
Proof.
  unfold recycleRemoteSession, RespawnPane, switchClient. run_monad.
  destruct (HasSession h target) as [[]|]; [|reflexivity..].
  destruct (getSessionPane h target); [|reflexivity].
  cbn [negb]. destruct (recycleDryRun f).
  { by destruct (recycleWatch f). }
  destruct (respawnError h _ cmd); [reflexivity|].
  destruct (recycleWatch f); [|reflexivity].
  by destruct (switchClientError h target).
Qed.

(** The session [recycle] is after: the one the first argument names, or
    the caller's own. *)
Lemma runRecycle_run {S} (f : RecycleFlags) (args : list string) (s : S) :
  runRecycle h f args s =
    if negb (IsInsideTmux h) then
      (Err "not running in tmux - cannot recycle", s, [])
    else if String.eqb (Getenv h "TMUX_PANE") "" then
      (Err "TMUX_PANE not set - cannot recycle", s, [])
    else
      match getCurrentTmuxSession h with
      | Err e => (Err ("getting session name: " +:+ e), s, [])
      | Ok current =>
          match match args with
                | role :: _ =>
                    match resolveRoleToSession h role with
                    | Ok t => Ok t
                    | Err e => Err ("resolving role: " +:+ e)
                    end
                | [] => Ok current
                end with
          | Err e => (Err e, s, [])
          | Ok target =>
              match buildRestartCommand target with
              | Err e => (Err e, s, [])
              | Ok cmd =>
                  if negb (String.eqb target current) then
                    recycleRemoteSession h f target cmd s
                  else if recycleDryRun f then
                    (Ok tt, s,
                     [Printed (MsgRecycling current);
                      Printed (MsgWouldRespawn (Getenv h "TMUX_PANE") cmd)])
                  else
                    (match respawnError h (Getenv h "TMUX_PANE") cmd with
                     | None => Ok tt
                     | Some e => Err e
                     end, s,
                     [Printed (MsgRecycling current);
                      EvRespawnPane (Getenv h "TMUX_PANE") cmd])
              end
          end
      end.
Proof.
  unfold runRecycle, RespawnPane. run_monad.
  destruct (negb (IsInsideTmux h)); [reflexivity|].
  destruct (String.eqb (Getenv h "TMUX_PANE") ""); [reflexivity|].
  destruct (getCurrentTmuxSession h) as [current|]; [|reflexivity].
  destruct args as [|role args].
  - destruct (buildRestartCommand current); [|reflexivity].
    rewrite String.eqb_refl. cbn [negb].
    by destruct (recycleDryRun f).
  - destruct (resolveRoleToSession h role) as [target|]; [|reflexivity].
    destruct (buildRestartCommand target); [|reflexivity].
    destruct (negb (String.eqb target current)).
    + by destruct (recycleRemoteSession h f target _ s) as [[[] ?] ?].
    + by destruct (recycleDryRun f).
Qed.

(** X5. A dry run of [recycle] only prints: it restarts no pane and switches
    no client, whatever the target. *)
Theorem recycle_dry_run_only_prints {S} (f : RecycleFlags)
    (args : list string) (s : S) :
  recycleDryRun f = true ->
  Forall (fun e => isEffect e = false) (trace (runRecycle h f args s)).
Proof.
  intros Hdry. rewrite runRecycle_run. unfold trace.
  repeat case_match; simplify_eq; rewrite ?recycleRemoteSession_run, ?Hdry;
    repeat case_match; simplify_eq; cbn [snd]; repeat constructor.
Qed.

(** X6. [recycle] switches the client only to a target it has just
    restarted: a switch in the log means the watch option is on, the run is
    no dry run, the target session exists, the respawn of its pane
    succeeded, and the run ends without an error. *)
Theorem recycle_switches_only_after_respawn {S} (f : RecycleFlags)
    (args : list string) (s : S) (session : string) :
  EvSwitchClient session ∈ trace (runRecycle h f args s) ->
  recycleWatch f = true /\
  recycleDryRun f = false /\
  HasSession h session = Ok true /\
  result (runRecycle h f args s) = Ok tt /\
  exists pane cmd,
    getSessionPane h session = Ok pane /\
    buildRestartCommand session = Ok cmd /\
    respawnError h pane cmd = None /\
    exists rest,
      trace (runRecycle h f args s) =
        Printed (MsgRecycling session) :: EvRespawnPane pane cmd
        :: Printed (MsgSwitching session) :: EvSwitchClient session :: rest.
Proof.
  intros (pre & post & Htr)%list_elem_of_split. revert Htr.
  rewrite runRecycle_run. unfold trace, result.
  repeat case_match; simplify_eq; rewrite ?recycleRemoteSession_run;
    repeat case_match; simplify_eq; cbn [fst snd]; intros Htr; locate_event.
  all: split_and!; try done; eauto 10.
Qed.

(** X7. [recycle] restarts at most one pane, never in a dry run, and only a
    pane it has found: the caller's own [TMUX_PANE] with the command of its
    own session, or the first pane of a target that [HasSession] reported
    present, with the command of that target. *)
Theorem recycle_respawns_one_known_pane {S} (f : RecycleFlags)
    (args : list string) (s : S) (pre post : list Event) (pane cmd : string) :
  trace (runRecycle h f args s) = pre ++ EvRespawnPane pane cmd :: post ->
  recycleDryRun f = false /\
  Forall (fun e => isRestart e = false) pre /\
  Forall (fun e => isRestart e = false) post /\
  exists target,
    buildRestartCommand target = Ok cmd /\
    ((getCurrentTmuxSession h = Ok target /\ pane = Getenv h "TMUX_PANE") \/
     (HasSession h target = Ok true /\ getSessionPane h target = Ok pane)).
Proof.
  rewrite runRecycle_run. unfold trace.
  repeat case_match; simplify_eq; rewrite ?recycleRemoteSession_run;
    repeat case_match; simplify_eq; cbn [snd]; intros Htr; locate_event.
  all: repeat match goal with
       | H : negb (String.eqb _ _) = false |- _ =>
           apply negb_eqb_false in H; subst
       end.
  all: split_and!; try done; repeat constructor; eauto 10.
Qed.

(** X8. Without an argument [recycle] stays with the caller: it never
    switches the client, and the only pane it can restart is the caller's
    own [TMUX_PANE]. *)
Theorem recycle_without_argument_stays_home {S} (f : RecycleFlags) (s : S) :
  Forall (fun e => match e with
                   | EvSwitchClient _ => False
                   | EvRespawnPane pane _ => pane = Getenv h "TMUX_PANE"
                   | _ => True
                   end) (trace (runRecycle h f [] s)).
Proof.
  rewrite runRecycle_run. unfold trace.
  repeat case_match; simplify_eq; cbn [snd]; repeat constructor.
  all: by rewrite String.eqb_refl in *.
Qed.

(** X9. Naming one's own session is the same as naming none: a role token
    that resolves to the caller's session gives the run without
    argument. *)
Theorem recycle_own_role_is_self {S} (f : RecycleFlags) (role : string)
    (rest : list string) (s : S) (current : string) :
  getCurrentTmuxSession h = Ok current ->
  resolveRoleToSession h role = Ok current ->
  runRecycle h f (role :: rest) s = runRecycle h f [] s.
Proof.
  intros Hcur Hrole. rewrite !runRecycle_run, Hcur, Hrole. reflexivity.
Qed.

End RecycleRunFacts.

(** X10. A failed client switch is not fatal: with any other answer of
    [tmux switch-client] the run ends the same way and acts the same way;
    only the printed note differs. *)
Theorem recycle_switch_failure_is_not_fatal {S} (h : Host) (f : RecycleFlags)
    (args : list string) (s : S) (g : string -> option string) :
  result (runRecycle (withSwitchClientError h g) f args s)
    = result (runRecycle h f args s) /\
  List.filter isEffect (trace (runRecycle (withSwitchClientError h g) f args s))
    = List.filter isEffect (trace (runRecycle h f args s)).
Proof.
  rewrite !runRecycle_run.
  change (IsInsideTmux (withSwitchClientError h g)) with (IsInsideTmux h).
  change (Getenv (withSwitchClientError h g)) with (Getenv h).
  change (getCurrentTmuxSession (withSwitchClientError h g))
    with (getCurrentTmuxSession h).
  change (resolveRoleToSession (withSwitchClientError h g))
    with (resolveRoleToSession h).
  change (respawnError (withSwitchClientError h g)) with (respawnError h).
  unfold trace, result.
  repeat case_match; simplify_eq; try done.
  all: rewrite !recycleRemoteSession_run.
  all: change (HasSession (withSwitchClientError h g)) with (HasSession h).
  all: change (getSessionPane (withSwitchClientError h g)) with (getSessionPane h).
  all: change (respawnError (withSwitchClientError h g)) with (respawnError h).
  all: change (switchClientError (withSwitchClientError h g)) with g.
  all: repeat case_match; simplify_eq; done.
Qed.


(** X6 and X7, on a run: joe recycles the running mayor. *)
Lemma recycle_switches_only_after_respawn_witness :
  recycleWatch (mkRecycleFlags None None) = true /\
  recycleDryRun (mkRecycleFlags None None) = false /\
  HasSession Town.joe "gt-mayor" = Ok true /\
  result (runRecycle Town.joe (mkRecycleFlags None None) ["mayor"] tt) = Ok tt /\
  exists pane cmd,
    getSessionPane Town.joe "gt-mayor" = Ok pane /\
    buildRestartCommand "gt-mayor" = Ok cmd /\
    respawnError Town.joe pane cmd = None /\
    exists rest,
      trace (runRecycle Town.joe (mkRecycleFlags None None) ["mayor"] tt) =
        Printed (MsgRecycling "gt-mayor") :: EvRespawnPane pane cmd
        :: Printed (MsgSwitching "gt-mayor") :: EvSwitchClient "gt-mayor" :: rest.
Proof.
  apply (recycle_switches_only_after_respawn Town.joe (mkRecycleFlags None None)
           ["mayor"] tt "gt-mayor").
  vm_compute. apply list_elem_of_In. vm_compute. tauto.
Defined.

Lemma recycle_respawns_one_known_pane_witness :
  recycleDryRun (mkRecycleFlags None None) = false /\
  Forall (fun e => isRestart e = false) [Printed (MsgRecycling "gt-mayor")] /\
  Forall (fun e => isRestart e = false)
    [Printed (MsgSwitching "gt-mayor"); EvSwitchClient "gt-mayor"] /\
  exists target,
    buildRestartCommand target = Ok "gt may at" /\
    ((getCurrentTmuxSession Town.joe = Ok target /\ "%7" = Getenv Town.joe "TMUX_PANE") \/
     (HasSession Town.joe target = Ok true /\ getSessionPane Town.joe target = Ok "%7")).
Proof.
  apply (recycle_respawns_one_known_pane Town.joe (mkRecycleFlags None None)
           ["mayor"] tt). reflexivity.
Defined.

(** X5, on a run: joe previews the recycling of the mayor. *)
Lemma recycle_dry_run_only_prints_witness :
  Forall (fun e => isEffect e = false)
    (trace (runRecycle Town.joe (mkRecycleFlags None (Some true)) ["mayor"] tt)).
Proof.
  apply (recycle_dry_run_only_prints Town.joe (mkRecycleFlags None (Some true))
           ["mayor"] tt). reflexivity.
Defined.

(** X9, on a run: joe names his own crew session. *)
Lemma recycle_own_role_is_self_witness :
  runRecycle Town.joe (mkRecycleFlags None None) ["crew"] tt
    = runRecycle Town.joe (mkRecycleFlags None None) [] tt.
Proof.
  apply (recycle_own_role_is_self Town.joe (mkRecycleFlags None None)
           "crew" [] tt "gt-rigA-crew-joe"); reflexivity.
Defined.

(** ** [sling]: what a run does and does not do *)

Section SlingRunFacts.
Context (h : Host).

(** [triggerHandoff], run symbolically. *)
Lemma triggerHandoff_run {S} (f : SlingFlags) (agentID beadID : string) (s : S) :
  triggerHandoff h f agentID beadID s =
    if negb (String.eqb (Getenv h "GT_POLECAT") "") then
      (Err "polecats cannot sling - use gt done for handoff", s,
       [Printed MsgPolecatDetected])
    else if negb (IsInsideTmux h) then
      (Err "not running in tmux - cannot restart", s, [])
    else if String.eqb (Getenv h "TMUX_PANE") "" then
      (Err "TMUX_PANE not set", s, [])
    else
      match getCurrentTmuxSession h with
      | Err e => (Err ("getting session: " +:+ e), s, [])
      | Ok current =>
          match buildRestartCommand current with
          | Err e => (Err e, s, [])
          | Ok cmd =>
              (match respawnError h (Getenv h "TMUX_PANE") cmd with
               | None => Ok tt
               | Some e => Err e
               end, s,
               [EvHandoffMail (slungSubject f beadID) (slungMessage f beadID);
                Printed match handoffMailError h (slungSubject f beadID)
                                (slungMessage f beadID) with
                        | Some e => MsgMailWarning e
                        | None => MsgSentMail
                        end;
                Printed MsgRestarting;
                EvRespawnPane (Getenv h "TMUX_PANE") cmd])
          end
      end.
Proof.
  unfold triggerHandoff, sendHandoffMail, RespawnPane, slungSubject, slungMessage.
  run_monad.
  destruct (negb (String.eqb (Getenv h "GT_POLECAT") "")); [reflexivity|].
  destruct (negb (IsInsideTmux h)); [reflexivity|].
  destruct (String.eqb (Getenv h "TMUX_PANE") ""); [reflexivity|].
  destruct (getCurrentTmuxSession h) as [current|]; [|reflexivity].
  destruct (buildRestartCommand current) as [cmd|]; [|reflexivity].
  by destruct (handoffMailError h _ _), (respawnError h _ cmd).
Qed.

(** [runSling], run symbolically. *)
Lemma runSling_run (f : SlingFlags) (beadID : string) (hooks : Hooks) :
  runSling h f beadID hooks =
    match bdShow h beadID with
    | Some _ =>
        (Err ("bead '" +:+ beadID +:+ "' not found (bd show failed)"), hooks, [])
    | None =>
        match detectAgentIdentity h with
        | Err e => (Err ("detecting agent identity: " +:+ e), hooks, [])
        | Ok agentID =>
            match detectCloneRoot h with
            | Err e => (Err ("detecting clone root: " +:+ e), hooks, [])
            | Ok cloneRoot =>
                if slingDryRun f then
                  (Ok tt, hooks, slingPreview f beadID agentID cloneRoot)
                else
                  match writeWispError h cloneRoot agentID
                          (slungWork h f beadID agentID) with
                  | Some e =>
                      (Err ("writing wisp: " +:+ e), hooks,
                       [Printed (MsgSlinging beadID);
                        EvWriteSlungWork cloneRoot agentID
                          (slungWork h f beadID agentID)])
                  | None =>
                      let r := triggerHandoff h f agentID beadID
                                 (<[(cloneRoot, agentID) :=
                                      slungWork h f beadID agentID]> hooks) in
                      (result r, final r,
                       Printed (MsgSlinging beadID)
                       :: EvWriteSlungWork cloneRoot agentID
                            (slungWork h f beadID agentID)
                       :: Printed MsgWorkAttached :: trace r)
                  end
            end
        end
    end.
Proof.
  unfold runSling, verifyBeadExists, WriteSlungWork, NewSlungWork, slungWork,
    slingPreview.
  run_monad. cbn [sw_BeadID sw_Agent sw_CreatedAt].
  destruct (bdShow h beadID); [reflexivity|].
  destruct (detectAgentIdentity h) as [agentID|]; [|reflexivity].
  destruct (detectCloneRoot h) as [cloneRoot|]; [|reflexivity].
  destruct (slingDryRun f).
  { by destruct (negb (String.eqb (slingSubject f) "")),
               (negb (String.eqb (slingMessage f) "")). }
  destruct (writeWispError h cloneRoot agentID _); [reflexivity|].
  by destruct (triggerHandoff h f agentID beadID _) as [[[] ?] ?].
Qed.

(** X11. A dry run of [sling] only prints and leaves every hook as it was:
    no wisp is written, no mail sent, no pane restarted. *)
Theorem sling_dry_run_only_prints (f : SlingFlags) (beadID : string)
    (hooks : Hooks) :
  slingDryRun f = true ->
  final (runSling h f beadID hooks) = hooks /\
  Forall (fun e => isEffect e = false) (trace (runSling h f beadID hooks)).
Proof.
  intros Hdry. rewrite runSling_run, Hdry. unfold slingPreview, final, trace.
  repeat case_match; simplify_eq; cbn [fst snd app]; split; try done;
    repeat constructor.
Qed.

(** X12. [sling] writes the hook at most once, and never in a dry run: the
    one call of [wisp.WriteSlungWork] is for the detected clone root and the
    detected identity, and the record it writes carries the subject and the
    message of the command line. *)
Theorem sling_writes_hook_once (f : SlingFlags) (beadID : string)
    (hooks : Hooks) (pre post : list Event) (root agent : string)
    (sw : SlungWork) :
  trace (runSling h f beadID hooks)
    = pre ++ EvWriteSlungWork root agent sw :: post ->
  slingDryRun f = false /\
  detectCloneRoot h = Ok root /\
  detectAgentIdentity h = Ok agent /\
  sw_Subject sw = slingSubject f /\
  sw_Context sw = slingMessage f /\
  Forall (fun e => isHookWrite e = false) pre /\
  Forall (fun e => isHookWrite e = false) post.
Proof.
  rewrite runSling_run. unfold slingPreview, trace.
  destruct (bdShow h beadID); [cbn [snd]; intros; by locate_event|].
  destruct (detectAgentIdentity h) as [agentID|];
    [|cbn [snd]; intros; by locate_event].
  destruct (detectCloneRoot h) as [cloneRoot|];
    [|cbn [snd]; intros; by locate_event].
  destruct (slingDryRun f).
  { repeat case_match; cbn [snd app]; intros; by locate_event. }
  assert (Hquiet : Forall (fun e => isHookWrite e = false)
            (triggerHandoff h f agentID beadID
               (<[(cloneRoot, agentID) := slungWork h f beadID agentID]> hooks)).2).
  { rewrite triggerHandoff_run. repeat case_match; cbn [snd]; repeat constructor. }
  destruct (writeWispError h cloneRoot agentID _).
  { cbn [snd]. intros Htr. locate_event. split_and!; try done; repeat constructor. }
  cbv zeta. cbn [snd]. intros Htr. locate_event.
  - split_and!; try done; [by repeat constructor|by constructor].
  - exfalso. rewrite Htr in Hquiet.
    apply Forall_app in Hquiet as [_ Hbad]. by inversion Hbad.
Qed.

(** [sling] does not roll back: once the hook is written, it stays written
    whatever becomes of the hand-off, and the run ends as [triggerHandoff]
    ends. *)
Lemma sling_hook_survives_handoff (f : SlingFlags) (beadID : string)
    (hooks : Hooks) (agent root : string) :
  bdShow h beadID = None ->
  detectAgentIdentity h = Ok agent ->
  detectCloneRoot h = Ok root ->
  slingDryRun f = false ->
  writeWispError h root agent (slungWork h f beadID agent) = None ->
  final (runSling h f beadID hooks)
    = <[(root, agent) := slungWork h f beadID agent]> hooks /\
  result (runSling h f beadID hooks)
    = result (triggerHandoff h f agent beadID
                (<[(root, agent) := slungWork h f beadID agent]> hooks)).
Proof.
  intros Hshow Hagent Hroot Hdry Hwrite.
  rewrite runSling_run, Hshow, Hagent, Hroot, Hdry, Hwrite. cbv zeta.
  split; [|reflexivity]. apply (triggerHandoff_keeps_state h).
Qed.

(** X13. [sling] calls the mail sender in exactly the runs in which it calls
    [RespawnPane], whether or not either call succeeds. *)
Theorem sling_calls_mail_iff_respawn (f : SlingFlags) (beadID : string)
    (hooks : Hooks) :
  existsb isMail (trace (runSling h f beadID hooks))
    = existsb isRestart (trace (runSling h f beadID hooks)).
Proof.
  rewrite runSling_run. unfold slingPreview, trace.
  repeat case_match; simplify_eq; cbn [snd]; try reflexivity.
  cbv zeta. cbn [snd existsb isMail isRestart orb].
  rewrite triggerHandoff_run. by repeat case_match.
Qed.

End SlingRunFacts.

(** X14. A failed hand-off mail is not fatal: with any other answer of the
    mail sender, [sling] ends the same way, leaves the same hooks and acts
    the same way; only the printed line about the mail differs. *)
Theorem sling_mail_failure_is_not_fatal (h : Host) (f : SlingFlags)
    (beadID : string) (hooks : Hooks) (g : string -> string -> option string) :
  result (runSling (withHandoffMailError h g) f beadID hooks)
    = result (runSling h f beadID hooks) /\
  final (runSling (withHandoffMailError h g) f beadID hooks)
    = final (runSling h f beadID hooks) /\
  List.filter isEffect (trace (runSling (withHandoffMailError h g) f beadID hooks))
    = List.filter isEffect (trace (runSling h f beadID hooks)).
Proof.
  rewrite !runSling_run.
  change (bdShow (withHandoffMailError h g)) with (bdShow h).
  change (detectAgentIdentity (withHandoffMailError h g))
    with (detectAgentIdentity h).
  change (detectCloneRoot (withHandoffMailError h g)) with (detectCloneRoot h).
  change (writeWispError (withHandoffMailError h g)) with (writeWispError h).
  change (slungWork (withHandoffMailError h g)) with (slungWork h).
  unfold result, final, trace.
  repeat case_match; simplify_eq; try done.
  all: cbv zeta; rewrite !triggerHandoff_run.
  all: change (Getenv (withHandoffMailError h g)) with (Getenv h).
  all: change (IsInsideTmux (withHandoffMailError h g)) with (IsInsideTmux h).
  all: change (getCurrentTmuxSession (withHandoffMailError h g))
         with (getCurrentTmuxSession h).
  all: change (respawnError (withHandoffMailError h g)) with (respawnError h).
  all: repeat case_match; simplify_eq; done.
Qed.

(** X11, on a run: polecat nux previews a sling. *)
Lemma sling_dry_run_only_prints_witness :
  final (runSling Town.nux (mkSlingFlags "" "" true) "gt-x" ∅) = ∅ /\
  Forall (fun e => isEffect e = false)
    (trace (runSling Town.nux (mkSlingFlags "" "" true) "gt-x" ∅)).
Proof.
  apply (sling_dry_run_only_prints Town.nux (mkSlingFlags "" "" true) "gt-x" ∅).
  reflexivity.
Defined.

(** X12, on a run: joe slings [gt-x] with a subject. *)
Lemma sling_writes_hook_once_witness :
  slingDryRun (mkSlingFlags "Fix the bug" "" false) = false /\
  detectCloneRoot Town.joe = Ok "/town/rigA/crew/joe" /\
  detectAgentIdentity Town.joe = Ok "rigA/crew/joe" /\
  sw_Subject (mkSlungWork "gt-x" "rigA/crew/joe" "Fix the bug" "" 42)
    = slingSubject (mkSlingFlags "Fix the bug" "" false) /\
  sw_Context (mkSlungWork "gt-x" "rigA/crew/joe" "Fix the bug" "" 42)
    = slingMessage (mkSlingFlags "Fix the bug" "" false) /\
  Forall (fun e => isHookWrite e = false) [Printed (MsgSlinging "gt-x")] /\
  Forall (fun e => isHookWrite e = false)
    [Printed MsgWorkAttached;
     EvHandoffMail "🎯 SLUNG: Fix the bug"
       "Work slung onto hook. Run bd show gt-x for details.";
     Printed MsgSentMail; Printed MsgRestarting;
     EvRespawnPane "%3" "gt crew at"].
Proof.
  apply (sling_writes_hook_once Town.joe (mkSlingFlags "Fix the bug" "" false)
           "gt-x" ∅ _ _ "/town/rigA/crew/joe" "rigA/crew/joe").
  vm_compute. reflexivity.
Defined.

(** ** [sling]: the identity read back from a session name *)

Lemma rig_session_suffixes (rig : string) :
  HasSuffix ("gt-" +:+ rig +:+ "-witness") "-witness" = true /\
  HasSuffix ("gt-" +:+ rig +:+ "-refinery") "-refinery" = true /\
  HasSuffix ("gt-" +:+ rig +:+ "-refinery") "-witness" = false.
Proof.
  split_and!.
  - rewrite <- append_assoc. apply HasSuffix_append.
  - rewrite <- append_assoc. apply HasSuffix_append.
  - change ("gt-" +:+ rig +:+ "-refinery")
      with ("gt-" +:+ rig +:+ "-" +:+ "refinery").
    rewrite <- (append_assoc rig), <- append_assoc.
    unfold HasSuffix. rewrite length_append.
    replace (String.length ("gt-" +:+ rig +:+ "-") + String.length "refinery"
             - String.length "-witness")
      with (String.length ("gt-" +:+ rig +:+ "-")) by (cbn; lia).
    change (String.length "-witness") with (String.length "refinery") at 2.
    rewrite substring_append_r. apply andb_false_r.
Qed.

Lemma resolve_witness (h : Host) :
  resolveRoleToSession h "witness" =
    if String.eqb (Getenv h "GT_RIG") "" then
      Err "cannot determine rig - set GT_RIG or run from rig context"
    else Ok ("gt-" +:+ Getenv h "GT_RIG" +:+ "-witness").
Proof. reflexivity. Qed.

Lemma resolve_refinery (h : Host) :
  resolveRoleToSession h "refinery" =
    if String.eqb (Getenv h "GT_RIG") "" then
      Err "cannot determine rig - set GT_RIG or run from rig context"
    else Ok ("gt-" +:+ Getenv h "GT_RIG" +:+ "-refinery").
Proof. reflexivity. Qed.

(** X15. The session name [recycle] builds for a rig's witness or refinery
    is read back by [sling] as that rig's witness or refinery: with no crew
    or polecat in the environment or the working directory, an agent whose
    tmux session is the one the role resolves to is identified as
    [<rig>/<role>]. *)
Theorem rig_role_session_round_trip (h : Host) (role rig e : string) :
  role = "witness" \/ role = "refinery" ->
  Getenv h "GT_RIG" = rig ->
  rig <> "" ->
  Getenv h "GT_CREW" = "" ->
  Getenv h "GT_POLECAT" = "" ->
  detectCrewFromCwd h = Err e ->
  Getenv h "TMUX" <> "" ->
  getCurrentTmuxSession h = resolveRoleToSession h role ->
  detectAgentIdentity h = Ok (rig +:+ "/" +:+ role).
Proof.
  intros Hrole Hrig Hne Hcrew Hpolecat Hcwd Htmux Hsession.
  apply String.eqb_neq in Hne, Htmux.
  destruct (rig_session_suffixes rig) as (Hw & Hr & Hrw).
  unfold detectAgentIdentity, identityFromSession.
  rewrite Hcrew, Hpolecat, Hcwd, Htmux, Hsession. cbn [String.eqb negb andb].
  destruct Hrole as [-> | ->];
    [rewrite resolve_witness | rewrite resolve_refinery]; rewrite Hrig, Hne.
  - destruct (String.eqb _ "gt-mayor") eqn:E1.
    { apply String.eqb_eq in E1. rewrite E1 in Hw. discriminate Hw. }
    destruct (String.eqb _ "gt-deacon") eqn:E2.
    { apply String.eqb_eq in E2. rewrite E2 in Hw. discriminate Hw. }
    rewrite Hw. by rewrite TrimPrefix_append, TrimSuffix_append.
  - destruct (String.eqb _ "gt-mayor") eqn:E1.
    { apply String.eqb_eq in E1. rewrite E1 in Hr. discriminate Hr. }
    destruct (String.eqb _ "gt-deacon") eqn:E2.
    { apply String.eqb_eq in E2. rewrite E2 in Hr. discriminate Hr. }
    rewrite Hrw, Hr. by rewrite TrimPrefix_append, TrimSuffix_append.
Qed.

(** X15, on a run: the witness of rig gastown. *)
Lemma rig_role_session_round_trip_witness :
  detectAgentIdentity gastownWitness = Ok ("gastown" +:+ "/" +:+ "witness").
Proof.
  apply (rig_role_session_round_trip gastownWitness "witness" "gastown"
           "not in a crew directory");
    [left; reflexivity | reflexivity | discriminate | reflexivity | reflexivity
    | reflexivity | vm_compute; discriminate | reflexivity].
Defined.

(** ** [convoy queue]: further properties *)

Section QueueRunFacts.
Context {Store : Type} `{BeadsAPI Store}.
Context (h : Host).

(** X16. [convoy queue] has three errors and no others: no workspace, the
    convoy not found, the tracked issues not listed.  Each comes before
    anything is printed or placed; every other run ends without an error, a
    run with nothing to queue included. *)
Theorem convoy_queue_errors (f : QueueFlags) (convoyID : string) (s : Store)
    (e : string) :
  result (runConvoyQueue h f convoyID s) = Err e ->
  final (runConvoyQueue h f convoyID s) = s /\
  trace (runConvoyQueue h f convoyID s) = [] /\
  (FindFromCwdOrError h = Err e \/
   (bdShow h convoyID <> None /\ e = "convoy '" +:+ convoyID +:+ "' not found") \/
   (exists townRoot e',
      FindFromCwdOrError h = Ok townRoot /\
      getTrackedIssues s (townBeadsDir townRoot) convoyID = Err e' /\
      e = "getting tracked issues: " +:+ e')).
Proof.
  rewrite runConvoyQueue_run. unfold result, final, trace.
  repeat case_match; simplify_eq; cbn [fst snd]; intros [= <-];
    split_and!; try done; eauto 10.
Qed.

Lemma printed_only_app (l1 l2 : list Event) :
  Forall (fun e => isEffect e = false) l1 ->
  Forall (fun e => isEffect e = false) l2 ->
  Forall (fun e => isEffect e = false) (l1 ++ l2).
Proof. intros. by apply Forall_app. Qed.

Lemma noticesAll_printed (s : Store) (townRoot : string) (force : bool)
    (tracked : list trackedIssueInfo) :
  Forall (fun e => isEffect e = false) (noticesAll s townRoot force tracked).
Proof.
  unfold noticesAll. induction tracked as [|t tracked IH]; [constructor|].
  cbn [flat_map]. apply Forall_app. split; [|exact IH].
  destruct (classOf s townRoot force t) as [[]| |]; repeat constructor.
Qed.

Lemma skipNotice_printed (sc : queueScan) :
  Forall (fun e => isEffect e = false) (skipNotice sc).
Proof. unfold skipNotice. destruct (anySkipped sc); repeat constructor. Qed.

Lemma wouldQueue_printed (cands : list queueCandidate) :
  Forall (fun e => isEffect e = false) (map wouldQueueNotice cands).
Proof. induction cands; by constructor. Qed.

(** X17. Whatever [convoy queue] does to the world is a placement: it
    writes no hook, sends no mail and restarts nothing; it places only in a
    live run, and every placement asks for the formula [mol-polecat-work]
    with the convoy link suppressed and the run's own force flag. *)
Theorem convoy_queue_only_places (f : QueueFlags) (convoyID : string) (s : Store) :
  Forall (fun e => match e with
                   | Printed _ => True
                   | EvEnqueueBead _ _ opts =>
                       convoyQueueDryRun f = false /\
                       opts = mkEnqueueOptions "mol-polecat-work" true
                                (convoyQueueForce f)
                   | _ => False
                   end) (trace (runConvoyQueue h f convoyID s)).
Proof.
  assert (Hprinted : forall l, Forall (fun e => isEffect e = false) l ->
    Forall (fun e => match e with
                     | Printed _ => True
                     | EvEnqueueBead _ _ opts =>
                         convoyQueueDryRun f = false /\
                         opts = mkEnqueueOptions "mol-polecat-work" true
                                  (convoyQueueForce f)
                     | _ => False
                     end) l).
  { intros l Hl. eapply Forall_impl; [exact Hl|]. by intros []. }
  rewrite runConvoyQueue_run. unfold trace.
  repeat case_match; simplify_eq; cbn [snd]; try (by repeat constructor).
  - apply Hprinted, printed_only_app; [apply noticesAll_printed|].
    constructor; [done|apply skipNotice_printed].
  - apply Hprinted, printed_only_app; [apply noticesAll_printed|].
    constructor; [done|].
    apply printed_only_app; [apply wouldQueue_printed|apply skipNotice_printed].
  - apply Forall_app. split; [apply Hprinted, noticesAll_printed|].
    constructor; [done|]. apply Forall_app. split.
    + apply Forall_flat_map, Forall_forall. intros [c [e|]] _;
        repeat constructor; done.
    + constructor; [done|]. apply Hprinted, skipNotice_printed.
Qed.

(** X18. Every candidate of the filter loop comes from a tracked issue that
    is not closed, not skipped as assigned, whose labels were read and lack
    the queue marker, and whose rig resolved: the candidate carries that
    issue's id and title and the resolved, non-empty rig. *)
Theorem candidates_are_dispatchable (s : Store) (townRoot : string)
    (force : bool) (tracked : list trackedIssueInfo) (sc : queueScan)
    (c : queueCandidate) :
  result (filterTracked townRoot force tracked s) = Ok sc ->
  c ∈ candidates sc ->
  exists t info,
    t ∈ tracked /\
    c = mkCandidate (ID t) (Title t) (resolveRigForBead townRoot (ID t)) /\
    isClosed t = false /\
    isAssigned force t = false /\
    getBeadInfo s (ID t) = Ok info /\
    hasQueuedLabel (Labels info) = false /\
    c_RigName c <> "".
Proof.
  rewrite filterTracked_run. intros [= <-].
  destruct (tallyAll_fields s townRoot force tracked scanStart)
    as (_ & _ & _ & _ & ->).
  cbn [scanStart candidates app].
  intros (t & Ht & Hclass)%list_elem_of_omap. revert Hclass.
  unfold classOf, hasNoRig.
  destruct (isClosed t) eqn:Hclosed; [done|].
  destruct (isAssigned force t) eqn:Hass; [done|].
  destruct (getBeadInfo s (ID t)) as [info|] eqn:Hinfo; [|done].
  destruct (hasQueuedLabel (Labels info)) eqn:Hq; [done|].
  destruct (String.eqb (resolveRigForBead townRoot (ID t)) "") eqn:Hrig; [done|].
  intros [= <-]. exists t, info. split_and!; try done.
  by apply String.eqb_neq.
Qed.

Lemma classOf_force_keeps_candidates (s : Store) (townRoot : string)
    (t : trackedIssueInfo) (c : queueCandidate) :
  classOf s townRoot false t = Candidate c ->
  classOf s townRoot true t = Candidate c.
Proof.
  unfold classOf, isAssigned. rewrite andb_false_r.
  by repeat case_match.
Qed.

Lemma classOf_force_never_assigned (s : Store) (townRoot : string)
    (t : trackedIssueInfo) :
  isSkipped SkipAssigned (classOf s townRoot true t) = false.
Proof.
  unfold classOf, isAssigned. rewrite andb_false_r.
  by repeat case_match.
Qed.

Lemma classOf_force_same_closed (s : Store) (townRoot : string)
    (t : trackedIssueInfo) :
  isSkipped SkipClosed (classOf s townRoot true t)
    = isSkipped SkipClosed (classOf s townRoot false t).
Proof.
  unfold classOf, isAssigned. rewrite andb_false_r.
  by repeat case_match.
Qed.

(** X19. [--force] only adds: with it no issue is skipped as assigned, as
    many are skipped as closed, and the candidates of the run without it are
    still candidates, in the same order. *)
Theorem force_only_adds_candidates (s : Store) (townRoot : string)
    (tracked : list trackedIssueInfo) :
  exists plain forced,
    result (filterTracked townRoot false tracked s) = Ok plain /\
    result (filterTracked townRoot true tracked s) = Ok forced /\
    candidates plain `sublist_of` candidates forced /\
    skippedAssigned forced = 0 /\
    skippedClosed forced = skippedClosed plain.
Proof.
  exists (tallyAll s townRoot false tracked scanStart),
         (tallyAll s townRoot true tracked scanStart).
  rewrite !filterTracked_run. split_and!; try reflexivity.
  - destruct (tallyAll_fields s townRoot false tracked scanStart)
      as (_ & _ & _ & _ & ->).
    destruct (tallyAll_fields s townRoot true tracked scanStart)
      as (_ & _ & _ & _ & ->).
    cbn [scanStart candidates app].
    induction tracked as [|t tracked IH]; [constructor|].
    cbn [omap list_omap].
    destruct (classOf s townRoot false t) as [r|c|e] eqn:Hplain; cbn [candidateOf].
    + destruct (candidateOf (classOf s townRoot true t));
        [by apply sublist_cons|exact IH].
    + rewrite (classOf_force_keeps_candidates _ _ _ _ Hplain). cbn [candidateOf].
      by apply sublist_skip.
    + destruct (candidateOf (classOf s townRoot true t));
        [by apply sublist_cons|exact IH].
  - destruct (tallyAll_fields s townRoot true tracked scanStart)
      as (_ & -> & _).
    cbn [scanStart skippedAssigned Nat.add]. unfold countClass.
    induction tracked as [|t tracked IH]; [reflexivity|].
    cbn [List.filter]. by rewrite classOf_force_never_assigned.
  - destruct (tallyAll_fields s townRoot true tracked scanStart) as (-> & _).
    destruct (tallyAll_fields s townRoot false tracked scanStart) as (-> & _).
    f_equal. unfold countClass.
    induction tracked as [|t tracked IH]; [reflexivity|].
    cbn [List.filter]. rewrite classOf_force_same_closed.
    destruct (isSkipped SkipClosed (classOf s townRoot false t));
      cbn [List.length]; by rewrite IH.
Qed.

Lemma noticesAll_Forall (P : Event -> Prop) (s : Store) (townRoot : string)
    (force : bool) (tracked : list trackedIssueInfo) :
  (forall id e, P (Printed (MsgCouldNotCheck id e))) ->
  (forall id p, P (Printed (MsgNoRig id p))) ->
  Forall P (noticesAll s townRoot force tracked).
Proof.
  intros Hwarn Hnorig. unfold noticesAll.
  induction tracked as [|t tracked IH]; [constructor|].
  cbn [flat_map]. apply Forall_app. split; [|exact IH].
  destruct (classOf s townRoot force t) as [[]| |]; repeat constructor; auto.
Qed.

Lemma placementEvents_Forall (P : Event -> Prop) (force : bool)
    (outs : list (queueCandidate * option string)) :
  (forall id rig opts, P (EvEnqueueBead id rig opts)) ->
  (forall id e, P (Printed (MsgEnqueueFailed id e))) ->
  Forall P (flat_map (placementEvents force) outs).
Proof.
  intros Hplace Hfail. apply Forall_flat_map, Forall_forall.
  intros [c [e|]] _; repeat constructor; auto.
Qed.

Lemma skipNotice_Forall (P : Event -> Prop) (sc : queueScan) :
  (anySkipped sc = true ->
   P (Printed (MsgSkipped (skippedClosed sc) (skippedAssigned sc)
                          (skippedQueued sc) (skippedNoRig sc)))) ->
  Forall P (skipNotice sc).
Proof.
  unfold skipNotice. destruct (anySkipped sc); repeat constructor; auto.
Qed.

Lemma anySkipped_positive (sc : queueScan) :
  anySkipped sc = true ->
  0 < skippedClosed sc + skippedAssigned sc + skippedQueued sc + skippedNoRig sc.
Proof.
  unfold anySkipped. rewrite !orb_true_iff, !Nat.ltb_lt. lia.
Qed.

(** X20. The numbers [convoy queue] prints add up: a dry run announces as
    many issues as it lists; a live run announces as many as it tries to
    place, and closes with the number placed, which with the failures it
    reported makes that total; a skip summary is printed only when something
    was skipped. *)
Theorem convoy_queue_counts_add_up (f : QueueFlags) (convoyID : string)
    (s : Store) :
  Forall (fun e =>
    match e with
    | Printed (MsgWouldQueueHeader n _) =>
        n = List.length (previewed (trace (runConvoyQueue h f convoyID s)))
        /\ 0 < n
    | Printed (MsgQueuing n _) =>
        n = List.length (attempted (trace (runConvoyQueue h f convoyID s)))
        /\ 0 < n
    | Printed (MsgQueued k n _) =>
        n = List.length (attempted (trace (runConvoyQueue h f convoyID s)))
        /\ k + List.length (reportedFailures
                               (trace (runConvoyQueue h f convoyID s))) = n
    | Printed (MsgSkipped c a q n) => 0 < c + a + q + n
    | _ => True
    end) (trace (runConvoyQueue h f convoyID s)).
Proof.
  rewrite runConvoyQueue_run. unfold trace.
  destruct (FindFromCwdOrError h) as [townRoot|]; [|constructor].
  destruct (bdShow h convoyID); [constructor|].
  destruct (getTrackedIssues s (townBeadsDir townRoot) convoyID) as [tracked|];
    [|constructor].
  destruct (List.length tracked =? 0)%nat; [by repeat constructor|]. cbv zeta.
  set (force := convoyQueueForce f).
  set (sc := tallyAll s townRoot force tracked scanStart).
  destruct (notices_are_no_reports s townRoot force tracked)
    as (Hn1 & Hn2 & _ & Hn4).
  destruct (skipNotice_reports sc) as (Hs1 & Hs2 & Hs3).
  pose proof (fun P => skipNotice_Forall P sc) as Hskip.
  destruct (List.length (candidates sc) =? 0)%nat eqn:Hnone.
  { cbn [snd]. apply Forall_app. split; [by apply noticesAll_Forall|].
    constructor; [done|]. apply Hskip. apply anySkipped_positive. }
  apply Nat.eqb_neq in Hnone.
  destruct (convoyQueueDryRun f).
  - cbn [snd].
    destruct (previewed_wouldQueue (candidates sc)) as (Hw1 & _).
    assert (Hlisted :
      List.length (previewed
        (noticesAll s townRoot force tracked
         ++ Printed (MsgWouldQueueHeader (List.length (candidates sc)) convoyID)
         :: map wouldQueueNotice (candidates sc) ++ skipNotice sc))
      = List.length (candidates sc)).
    { unfold previewed in *. rewrite !omap_app. cbn [omap list_omap].
      rewrite !omap_app, Hn1, Hs1, Hw1, app_nil_r. cbn [app].
      by rewrite length_map. }
    apply Forall_app. split; [by apply noticesAll_Forall|].
    constructor; [split; [by rewrite Hlisted|lia]|].
    apply Forall_app. split.
    + apply Forall_forall. by intros e (c & -> & _)%list_elem_of_fmap.
    + apply Hskip. apply anySkipped_positive.
  - cbn [snd].
    set (outs := placementOutcomes force s (candidates sc)).
    pose proof (attempted_placements force outs) as Hp1.
    pose proof (reported_placements force outs) as Hp2.
    pose proof (placementOutcomes_candidates force (candidates sc) s) as Hlen.
    apply (f_equal (@List.length _)) in Hlen. rewrite length_map in Hlen.
    fold outs in Hlen.
    assert (Htried :
      List.length (attempted
        (noticesAll s townRoot force tracked
         ++ Printed (MsgQueuing (List.length (candidates sc)) convoyID)
         :: flat_map (placementEvents force) outs
         ++ Printed (MsgQueued (placed outs) (List.length (candidates sc)) convoyID)
         :: skipNotice sc))
      = List.length (candidates sc)).
    { unfold attempted in *. rewrite !omap_app. cbn [omap list_omap].
      rewrite !omap_app. cbn [omap list_omap].
      rewrite Hn2, Hs2, Hp1, app_nil_r. cbn [app].
      by rewrite length_map. }
    assert (Hfailed :
      List.length (reportedFailures
        (noticesAll s townRoot force tracked
         ++ Printed (MsgQueuing (List.length (candidates sc)) convoyID)
         :: flat_map (placementEvents force) outs
         ++ Printed (MsgQueued (placed outs) (List.length (candidates sc)) convoyID)
         :: skipNotice sc))
      = List.length (omap placementFailure outs)).
    { unfold reportedFailures in *. rewrite !omap_app. cbn [omap list_omap].
      rewrite !omap_app. cbn [omap list_omap].
      by rewrite Hn4, Hs3, Hp2, app_nil_r. }
    apply Forall_app. split; [by apply noticesAll_Forall|].
    constructor; [split; [by rewrite Htried|lia]|].
    apply Forall_app. split; [by apply placementEvents_Forall|].
    constructor.
    + split; [by rewrite Htried|].
      rewrite Hfailed, placed_plus_failed. exact Hlen.
    + apply Hskip. apply anySkipped_positive.
Qed.

End QueueRunFacts.

(** X16, on a run: the store crashes while the convoy is looked up. *)
Lemma convoy_queue_errors_witness :
  final (runConvoyQueue Town.crashed (mkQueueFlags false false) "hq-cv-1"
           ([] : Town.Store)) = [] /\
  trace (runConvoyQueue Town.crashed (mkQueueFlags false false) "hq-cv-1"
           ([] : Town.Store)) = [] /\
  (FindFromCwdOrError Town.crashed = Err ("convoy '" +:+ "hq-cv-1" +:+ "' not found") \/
   (bdShow Town.crashed "hq-cv-1" <> None /\
    "convoy '" +:+ "hq-cv-1" +:+ "' not found"
      = "convoy '" +:+ "hq-cv-1" +:+ "' not found") \/
   (exists townRoot e',
      FindFromCwdOrError Town.crashed = Ok townRoot /\
      getTrackedIssues ([] : Town.Store) (townBeadsDir townRoot) "hq-cv-1" = Err e' /\
      "convoy '" +:+ "hq-cv-1" +:+ "' not found" = "getting tracked issues: " +:+ e')).
Proof.
  apply (convoy_queue_errors Town.crashed (mkQueueFlags false false) "hq-cv-1"
           ([] : Town.Store)).
  reflexivity.
Defined.

(** X18, on a run: [bd-b] is a candidate of convoy [hq-cv-1]. *)
Lemma candidates_are_dispatchable_witness :
  exists t info,
    t ∈ Town.tracked /\
    mkCandidate "bd-b" "Add index" "beads"
      = mkCandidate (ID t) (Title t) (resolveRigForBead "/town" (ID t)) /\
    isClosed t = false /\
    isAssigned false t = false /\
    getBeadInfo (["gt-c"] : Town.Store) (ID t) = Ok info /\
    hasQueuedLabel (Labels info) = false /\
    c_RigName (mkCandidate "bd-b" "Add index" "beads") <> "".
Proof.
  apply (candidates_are_dispatchable (["gt-c"] : Town.Store) "/town" false
           Town.tracked
           (mkScan [mkCandidate "bd-b" "Add index" "beads";
                    mkCandidate "bd-full" "Port tests" "beads";
                    mkCandidate "gt-d" "Write docs" "gastown"] 1 1 0 1));
    [reflexivity|].
  apply list_elem_of_In. cbn. tauto.
Defined.

(** ** [sling] and [recycle]: whose pane, and when not *)

(** X21. [sling] restarts in place: the only pane it restarts is the
    caller's own [TMUX_PANE], with the restart command of the caller's
    current session, and never in a dry run. *)
Theorem sling_restarts_own_pane (h : Host) (f : SlingFlags) (beadID : string)
    (hooks : Hooks) (pane cmd : string) :
  EvRespawnPane pane cmd ∈ trace (runSling h f beadID hooks) ->
  slingDryRun f = false /\
  pane = Getenv h "TMUX_PANE" /\
  exists current,
    getCurrentTmuxSession h = Ok current /\
    buildRestartCommand current = Ok cmd.
Proof.
  intros (pre & post & Htr)%list_elem_of_split. revert Htr.
  rewrite runSling_run. unfold slingPreview, trace.
  destruct (bdShow h beadID); [cbn [snd]; intros; by locate_event|].
  destruct (detectAgentIdentity h) as [agent|]; [|cbn [snd]; intros; by locate_event].
  destruct (detectCloneRoot h) as [root|]; [|cbn [snd]; intros; by locate_event].
  destruct (slingDryRun f).
  { repeat case_match; cbn [snd app]; intros; by locate_event. }
  destruct (writeWispError h root agent _);
    [cbn [snd]; intros; by locate_event|].
  cbv zeta. rewrite triggerHandoff_run.
  repeat case_match; simplify_eq; cbn [snd]; intros Htr; locate_event.
  all: split_and!; eauto.
Qed.

(** X22. A rig role needs a rig: when [GT_RIG] is unset, [recycle] of the
    witness or the refinery stops at the role, before it prints or restarts
    anything. *)
Theorem recycle_rig_role_without_rig {S} (h : Host) (f : RecycleFlags)
    (role : string) (rest : list string) (s : S) (current : string) :
  IsInsideTmux h = true ->
  Getenv h "TMUX_PANE" <> "" ->
  getCurrentTmuxSession h = Ok current ->
  (ToLower role = "witness" \/ ToLower role = "wit" \/
   ToLower role = "refinery" \/ ToLower role = "ref") ->
  Getenv h "GT_RIG" = "" ->
  runRecycle h f (role :: rest) s =
    (Err "resolving role: cannot determine rig - set GT_RIG or run from rig context",
     s, []).
Proof.
  intros Htmux Hpane%String.eqb_neq Hcur Hrole Hrig.
  rewrite runRecycle_run, Htmux, Hpane, Hcur. cbn [negb].
  unfold resolveRoleToSession.
  destruct Hrole as [-> | [-> | [-> | ->]]];
    cbn [String.eqb Ascii.eqb Bool.eqb orb]; by rewrite Hrig.
Qed.

(** X21, on a run: joe slings [gt-x]. *)
Lemma sling_restarts_own_pane_witness :
  slingDryRun (mkSlingFlags "" "" false) = false /\
  "%3" = Getenv Town.joe "TMUX_PANE" /\
  exists current,
    getCurrentTmuxSession Town.joe = Ok current /\
    buildRestartCommand current = Ok "gt crew at".
Proof.
  apply (sling_restarts_own_pane Town.joe (mkSlingFlags "" "" false) "gt-x" ∅).
  apply list_elem_of_In. vm_compute. tauto.
Defined.

(** X22, on a run: polecat nux's environment with the rig taken out. *)
Lemma recycle_rig_role_without_rig_witness :
  runRecycle (mkHost (Town.env [("TMUX_PANE", "%5")]) true
                (Ok "gt-gastown-nux") (Err "not in a crew directory")
                (Ok "/town") (fun _ => None) (fun _ => Ok true)
                (fun _ => Ok "%5") (fun _ _ => None) (fun _ => None)
                (fun _ _ _ => None) (fun _ _ => None) (Ok "/town") 47)
    (mkRecycleFlags None None) ["Witness"] tt =
    (Err "resolving role: cannot determine rig - set GT_RIG or run from rig context",
     tt, []).
Proof.
  apply (recycle_rig_role_without_rig _ (mkRecycleFlags None None) "Witness" []
           tt "gt-gastown-nux");
    [reflexivity | vm_compute; discriminate | reflexivity
    | left; reflexivity | reflexivity].
Defined.
